(** * Beatmaps service: osu! API v2 client and beatmap mirror backends

    A shallow embedding of [app/adapters/osu_api_v2.py],
    [app/adapters/beatmap_mirrors/mino.py] and
    [app/adapters/osu_mirrors/backends/ripple.py].

    Python coroutines are embedded as state-passing functions over a
    [World] (clock, upstream transport, log, requests sent).  A call
    returns, raises an [Exception] ([Raise]) or lets a [BaseException] that
    is not an [Exception] through ([RaiseBase]); [try ... except Exception]
    is a combinator that handles the former only.  An [await] either
    completes or is interrupted by such a [BaseException]. *)

From Stdlib Require Import ZArith List String Ascii Bool Lia.
From Stdlib Require Import Strings.Byte DecimalString.
From Stdlib Require DecimalPos DecimalZ.
Import ListNotations.

Local Open Scope string_scope.
Local Open Scope list_scope.
Local Open Scope Z_scope.

Set Warnings "-register-all".

(** ** Python values shared by the adapters *)

(** Instances of [Exception] the adapters can meet: what an
    [except Exception] clause catches. *)
Inductive PyExc : Type :=
| HTTPStatusError (status : Z)
| TransportError (detail : string)
| JSONDecodeError
| AssertionError
| TypeError
| ValidationError
| MirrorRequestError (cause : PyExc)
| OtherError (cls : string).

(** Instances of [BaseException] that are not [Exception]s: they can
    surface at an [await] (a cancelled coroutine, an interpreter shutting
    down), and no [except Exception] clause sees them. *)
Inductive PyBaseExc : Type :=
| CancelledError
| KeyboardInterrupt
| SystemExit
| GeneratorExit.

(** What [response.json()] can produce; [JNull] is Python's [None]. *)
Inductive Json : Type :=
| JNull
| JBool (b : bool)
| JInt (n : Z)
| JFloat (literal : string)
| JStr (s : string)
| JArr (items : list Json)
| JObj (members : list (string * Json)).

Definition bytes : Type := list byte.

(** [str(n)] / [f"{n}"] for a Python [int]. *)
Definition str_int (n : Z) : string := NilZero.string_of_int (Z.to_int n).

(** ** [datetime] in UTC *)

Module Datetime.

Record datetime : Type := {
  year : nat;
  month : nat;
  day : nat;
  hour : nat;
  minute : nat;
  second : nat;
  microsecond : nat
}.

(** [dt.replace(second=s, microsecond=us)] *)
Definition replace (dt : datetime) (s us : nat) : datetime :=
  {| year := year dt; month := month dt; day := day dt;
     hour := hour dt; minute := minute dt;
     second := s; microsecond := us |}.

Fixpoint zeros (k : nat) : string :=
  match k with
  | O => EmptyString
  | S k' => String "0" (zeros k')
  end.

(** ["%0<width>d" % n] *)
Definition zfill (width n : nat) : string :=
  let s := NilZero.string_of_uint (Nat.to_uint n) in
  (zeros (width - String.length s) ++ s)%string.

Definition isodate (dt : datetime) : string :=
  (zfill 4 (year dt) ++ "-" ++ zfill 2 (month dt) ++ "-"
     ++ zfill 2 (day dt))%string.

(** [dt.isoformat()] of an aware datetime whose tzinfo is [timezone.utc]:
    the fractional part is printed only when [microsecond] is not zero. *)
Definition isoformat (dt : datetime) : string :=
  (isodate dt ++ "T" ++ zfill 2 (hour dt) ++ ":" ++ zfill 2 (minute dt)
     ++ ":" ++ zfill 2 (second dt)
     ++ (if Nat.eqb (microsecond dt) 0 then ""
         else "." ++ zfill 6 (microsecond dt))
     ++ "+00:00")%string.

End Datetime.

Import Datetime.

(** ** Log records *)

Inductive Level : Type := INFO | WARNING | ERROR.

Record Ratelimit : Type := {
  remaining : option string;
  limit : option string;
  reset_utc : string
}.

(** The [extra=] dictionaries the adapters attach to log records. *)
Inductive Extra : Type :=
| NoExtra
| RequestExtra (request_url : string) (ratelimit : Ratelimit)
| ResponseDataExtra (osu_api_response_data : Json).

Record LogRecord : Type := {
  levelname : Level;
  msg : string;
  exc_info : option PyExc;
  extra : Extra
}.

(** A record written by [logging.exception(..., extra={"osu_api_response_data": ...})]. *)
Definition is_payload_log (r : LogRecord) : bool :=
  match extra r with
  | ResponseDataExtra _ => true
  | _ => false
  end.

(** A record written by [log_osu_api_response]. *)
Definition is_ratelimit_log (r : LogRecord) : bool :=
  match extra r with
  | RequestExtra _ _ => true
  | _ => false
  end.

(** ** HTTP responses *)

Record Response : Type := {
  request_url : string;            (* str(response.request.url) *)
  status_code : Z;
  headers : string -> option string; (* response.headers.get *)
  content : bytes
}.

(** [response.is_success] *)
Definition is_success (response : Response) : bool :=
  (200 <=? status_code response) && (status_code response <=? 299).

(** ** Ranked status and its legacy search encoding *)

Module RankedStatus.

(** Modelled from the spec: the internal ranked-status enum is declared in
    [app.common_models], which is not among the sources; its members are
    the ones [SearchLegacyRankedStatus.from_osu_api_status] names. *)
Inductive t : Type :=
| NOT_SUBMITTED
| PENDING
| UPDATE_AVAILABLE
| RANKED
| APPROVED
| QUALIFIED
| LOVED.

Definition eqb (a b : t) : bool :=
  match a, b with
  | NOT_SUBMITTED, NOT_SUBMITTED
  | PENDING, PENDING
  | UPDATE_AVAILABLE, UPDATE_AVAILABLE
  | RANKED, RANKED
  | APPROVED, APPROVED
  | QUALIFIED, QUALIFIED
  | LOVED, LOVED => true
  | _, _ => false
  end.

Definition members : list t :=
  [NOT_SUBMITTED; PENDING; UPDATE_AVAILABLE; RANKED; APPROVED; QUALIFIED;
   LOVED].

End RankedStatus.

(** [d.get(key)] on a dict literal whose values may themselves be [None]. *)
Fixpoint dict_get {K V : Type} (eqb : K -> K -> bool)
         (d : list (K * option V)) (key : K) : option V :=
  match d with
  | [] => None
  | (k, v) :: d' => if eqb k key then v else dict_get eqb d' key
  end.

Module SearchLegacyRankedStatus.

Inductive t : Type :=
| RANKED
| FAVOURITES
| QUALIFIED
| PENDING
| GRAVEYARD
| MINE
| ANY
| LOVED.

(** The [IntEnum] value of a member. *)
Definition value (s : t) : Z :=
  match s with
  | RANKED => 0
  | FAVOURITES => 2
  | QUALIFIED => 3
  | PENDING => 4
  | GRAVEYARD => 5
  | MINE => 6
  | ANY => 7
  | LOVED => 8
  end.

Definition from_osu_api_status (osu_api_status : RankedStatus.t)
  : option t :=
  dict_get RankedStatus.eqb
    [ (RankedStatus.NOT_SUBMITTED, None);
      (RankedStatus.PENDING, Some PENDING);
      (RankedStatus.UPDATE_AVAILABLE, None);
      (RankedStatus.RANKED, Some RANKED);
      (RankedStatus.APPROVED, Some RANKED);
      (RankedStatus.QUALIFIED, Some QUALIFIED);
      (RankedStatus.LOVED, Some LOVED) ]
    osu_api_status.

End SearchLegacyRankedStatus.

(** ** [Ruleset] *)

Module Ruleset.

Inductive t : Type :=
| OSU
| TAIKO
| FRUITS
| MANIA.

(** The [StrEnum] value of a member. *)
Definition value (r : t) : string :=
  match r with
  | OSU => "osu"
  | TAIKO => "taiko"
  | FRUITS => "fruits"
  | MANIA => "mania"
  end.

(** The members, in definition order. *)
Definition members : list t := [OSU; TAIKO; FRUITS; MANIA].

(** [Ruleset(s)]: the first member whose value is [s]; [None] stands for
    the [ValueError] Python raises when there is none. *)
Definition of_value (s : string) : option t :=
  find (fun r => String.eqb (value r) s) members.

End Ruleset.

(** ** The runtime the coroutines run in *)

Section Adapters.

(** [GameMode] is declared in [app.common_models], outside the sources, and
    is only passed through to the query parameters. *)
Variable GameMode : Type.

(** The decoders the client relies on: [json.loads] behind
    [response.json()], and the pydantic validation behind each model's
    constructor.  A right injection is the exception the decoder raises. *)
Variable json_loads : bytes -> Json + PyExc.
Variables BeatmapExtended BeatmapsetExtended BeatmapsetSearchResponse : Type.
Variable BeatmapExtended_validate
  : list (string * Json) -> BeatmapExtended + PyExc.
Variable BeatmapsetExtended_validate
  : list (string * Json) -> BeatmapsetExtended + PyExc.
Variable BeatmapsetSearchResponse_validate
  : list (string * Json) -> BeatmapsetSearchResponse + PyExc.

(** Values placed in a [params=] dictionary. *)
Inductive ParamValue : Type :=
| PNone
| PStr (s : string)
| PInt (n : Z)
| PRankedStatus (r : SearchLegacyRankedStatus.t)
| PGameMode (m : GameMode).

Record Request : Type := {
  method : string;
  url : string;
  params : list (string * ParamValue)
}.

(** [p[key]] on a [params=] dictionary literal with distinct keys *)
Fixpoint params_get (p : list (string * ParamValue)) (key : string)
  : option ParamValue :=
  match p with
  | [] => None
  | (k, v) :: p' => if String.eqb k key then Some v else params_get p' key
  end.

(** What the HTTP capability does with a request: a response, a
    transport failure (connection error, timeout, ...), or the [await]
    interrupted by a [BaseException]. *)
Inductive HttpOutcome : Type :=
| Responded (response : Response)
| Failed (e : PyExc)
| Interrupted (b : PyBaseExc).

Record World : Type := {
  clock : datetime;                     (* datetime.now(tz=timezone.utc) *)
  transport : Request -> HttpOutcome;
  log : list LogRecord;                 (* oldest first *)
  sent : list Request                   (* oldest first *)
}.

(** How a call ends: it returns, raises an [Exception], or lets a
    [BaseException] that is not an [Exception] through. *)
Inductive Outcome (A : Type) : Type :=
| Return (v : A)
| Raise (e : PyExc)
| RaiseBase (b : PyBaseExc).

Arguments Return {A} v.
Arguments Raise {A} e.
Arguments RaiseBase {A} b.

(** A function body: [L] is the frame of local variables the [except]
    clause can still read after the [try] block raised. *)
Definition Exec (L A : Type) : Type := L -> World -> Outcome A * L * World.

(** A call from outside: the frame is gone when it finishes. *)
Definition Call (A : Type) : Type := World -> Outcome A * World.

Definition ret {L A : Type} (v : A) : Exec L A :=
  fun l w => (Return v, l, w).

Definition raise {L A : Type} (e : PyExc) : Exec L A :=
  fun l w => (Raise e, l, w).

Definition bind {L A B : Type} (m : Exec L A) (k : A -> Exec L B)
  : Exec L B :=
  fun l w =>
    match m l w with
    | (Return v, l', w') => k v l' w'
    | (Raise e, l', w') => (Raise e, l', w')
    | (RaiseBase b, l', w') => (RaiseBase b, l', w')
    end.

(** [try: body  except Exception as e: handler e]: a [BaseException] that
    is not an [Exception] passes the clause untouched. *)
Definition try_except {L A : Type} (body : Exec L A)
           (handler : PyExc -> Exec L A) : Exec L A :=
  fun l w =>
    match body l w with
    | (Return v, l', w') => (Return v, l', w')
    | (Raise e, l', w') => handler e l' w'
    | (RaiseBase b, l', w') => (RaiseBase b, l', w')
    end.

Definition get_local {L : Type} : Exec L L :=
  fun l w => (Return l, l, w).

Definition set_local {L : Type} (v : L) : Exec L unit :=
  fun _ w => (Return tt, v, w).

Definition call {L A : Type} (c : Call A) : Exec L A :=
  fun l w => let (o, w') := c w in (o, l, w').

Definition def_ {L A : Type} (locals : L) (body : Exec L A) : Call A :=
  fun w => let '(o, _, w') := body locals w in (o, w').

Notation "x <- m ;; k" := (bind m (fun x => k))
  (at level 61, m at next level, right associativity).
Notation "m ;; k" := (bind m (fun _ => k))
  (at level 61, right associativity).

Definition datetime_now_utc {L : Type} : Exec L datetime :=
  fun l w => (Return (clock w), l, w).

Definition write_log (r : LogRecord) (w : World) : World :=
  {| clock := clock w; transport := transport w;
     log := log w ++ [r]; sent := sent w |}.

Definition record_request (q : Request) (w : World) : World :=
  {| clock := clock w; transport := transport w;
     log := log w; sent := sent w ++ [q] |}.

Definition emit {L : Type} (r : LogRecord) : Exec L unit :=
  fun l w => (Return tt, l, write_log r w).

Definition logging_info {L : Type} (m : string) (x : Extra) : Exec L unit :=
  emit {| levelname := INFO; msg := m; exc_info := None; extra := x |}.

(** [logging.warning(m, exc_info=True)] inside a handler of [e] *)
Definition logging_warning {L : Type} (m : string) (e : PyExc)
  : Exec L unit :=
  emit {| levelname := WARNING; msg := m; exc_info := Some e;
          extra := NoExtra |}.

(** [logging.exception(m, extra=x)] inside a handler of [e] *)
Definition logging_exception {L : Type} (m : string) (e : PyExc) (x : Extra)
  : Exec L unit :=
  emit {| levelname := ERROR; msg := m; exc_info := Some e; extra := x |}.

(** ** The HTTP client *)

Record AsyncClient : Type := {
  base_url : string;
  event_hooks : list (Response -> Call unit)   (* event_hooks["response"] *)
}.

Definition is_absolute_url (u : string) : bool :=
  String.prefix "http://" u || String.prefix "https://" u.

Definition merge_url (base u : string) : string :=
  if is_absolute_url u then u else (base ++ u)%string.

(** [client.build_request("GET", u, params=p)] *)
Definition build_request (client : AsyncClient) (u : string)
           (p : list (string * ParamValue)) : Request :=
  {| method := "GET"; url := merge_url (base_url client) u; params := p |}.

Definition send {L : Type} (request : Request) : Exec L Response :=
  fun l w =>
    match transport w request with
    | Responded response => (Return response, l, record_request request w)
    | Failed e => (Raise e, l, record_request request w)
    | Interrupted b => (RaiseBase b, l, record_request request w)
    end.

Fixpoint run_hooks {L : Type} (hooks : list (Response -> Call unit))
         (response : Response) : Exec L unit :=
  match hooks with
  | [] => ret tt
  | hook :: rest => call (hook response) ;; run_hooks rest response
  end.

(** [await client.get(u, params=p)] *)
Definition AsyncClient_get (client : AsyncClient) (u : string)
           (p : list (string * ParamValue)) : Call Response :=
  def_ tt
    (response <- send (build_request client u p) ;;
     run_hooks (event_hooks client) response ;;
     ret response).

(** [response.raise_for_status()] *)
Definition raise_for_status {L : Type} (response : Response) : Exec L unit :=
  if is_success response then ret tt
  else raise (HTTPStatusError (status_code response)).

(** [response.json()] *)
Definition Response_json {L : Type} (response : Response) : Exec L Json :=
  match json_loads (content response) with
  | inl v => ret v
  | inr e => raise e
  end.

(** [response.read()] of a response whose body has been received *)
Definition Response_read (response : Response) : bytes := content response.

(** [assert v is not None] *)
Definition assert_is_not_None {L : Type} (v : Json) : Exec L unit :=
  match v with
  | JNull => raise AssertionError
  | _ => ret tt
  end.

(** A model constructor called on [data] unpacked as keyword arguments:
    [data] must be a mapping, then pydantic validates its members. *)
Definition construct {L T : Type}
           (validate : list (string * Json) -> T + PyExc) (data : Json)
  : Exec L T :=
  match data with
  | JObj members =>
      match validate members with
      | inl v => ret v
      | inr e => raise e
      end
  | _ => raise TypeError
  end.

(** ** [app/adapters/osu_api_v2.py] *)

Definition OSU_API_V2_TOKEN_ENDPOINT : string :=
  "https://osu.ppy.sh/oauth/token".

Definition log_osu_api_response (response : Response) : Call unit :=
  def_ tt
    (if String.eqb (request_url response) OSU_API_V2_TOKEN_ENDPOINT
        || (status_code response =? 401)
     then ret tt
     else
       now <- datetime_now_utc ;;
       logging_info "Made authorized request to osu! api"
         (RequestExtra (request_url response)
            {| remaining := headers response "X-Ratelimit-Remaining";
               limit := headers response "X-Ratelimit-Limit";
               reset_utc := isoformat (replace now 0 0) |}) ;;
       ret tt).

(** The bearer-token flow ([oauth.AsyncOAuth]) and the 5 second timeout
    live in the transport: a timeout is a [Failed] outcome. *)
Definition osu_api_v2_http_client : AsyncClient :=
  {| base_url := "https://osu.ppy.sh/api/v2/";
     event_hooks := [log_osu_api_response] |}.

Definition get_beatmap (beatmap_id : Z) : Call (option BeatmapExtended) :=
  def_ JNull                                (* osu_api_response_data = None *)
    (try_except
       (response <- call (AsyncClient_get osu_api_v2_http_client
                            ("beatmaps/" ++ str_int beatmap_id)%string []) ;;
        if status_code response =? 404 then ret None
        else
          raise_for_status response ;;
          data <- Response_json response ;;
          set_local data ;;
          osu_api_response_data <- get_local ;;
          assert_is_not_None osu_api_response_data ;;
          beatmap <- construct BeatmapExtended_validate
                       osu_api_response_data ;;
          ret (Some beatmap))
       (fun exc =>
          osu_api_response_data <- get_local ;;
          logging_exception "Failed to fetch beatmap from osu! API" exc
            (ResponseDataExtra osu_api_response_data) ;;
          raise exc)).

Definition get_beatmapset (beatmapset_id : Z)
  : Call (option BeatmapsetExtended) :=
  def_ JNull                                (* osu_api_response_data = None *)
    (try_except
       (response <- call (AsyncClient_get osu_api_v2_http_client
                            ("beatmapsets/" ++ str_int beatmapset_id)%string
                            []) ;;
        if status_code response =? 404 then ret None
        else
          raise_for_status response ;;
          data <- Response_json response ;;
          set_local data ;;
          osu_api_response_data <- get_local ;;
          assert_is_not_None osu_api_response_data ;;
          beatmapset <- construct BeatmapsetExtended_validate
                          osu_api_response_data ;;
          ret (Some beatmapset))
       (fun exc =>
          osu_api_response_data <- get_local ;;
          logging_exception "Failed to fetch beatmapset from osu! API" exc
            (ResponseDataExtra osu_api_response_data) ;;
          raise exc)).

Definition search_beatmapsets (query : string)
           (ranked_status : SearchLegacyRankedStatus.t) (mode : GameMode)
           (page page_size : Z) (cursor_string : option string)
  : Call BeatmapsetSearchResponse :=
  def_ JNull                                (* osu_api_response_data = None *)
    (try_except
       (response <- call (AsyncClient_get osu_api_v2_http_client
                            "beatmapsets/search"
                            [ ("q", PStr query);
                              ("m", PGameMode mode);
                              ("r", PRankedStatus ranked_status);
                              ("page", PInt page);
                              ("limit", PInt page_size);
                              ("cursor_string",
                               match cursor_string with
                               | Some s => PStr s
                               | None => PNone
                               end) ]) ;;
        raise_for_status response ;;
        data <- Response_json response ;;
        set_local data ;;
        osu_api_response_data <- get_local ;;
        assert_is_not_None osu_api_response_data ;;
        construct BeatmapsetSearchResponse_validate osu_api_response_data)
       (fun exc =>
          osu_api_response_data <- get_local ;;
          logging_exception "Failed to fetch beatmapsets from osu! API" exc
            (ResponseDataExtra osu_api_response_data) ;;
          raise exc)).

(** ** The mirror backends *)

(** The instance state both mirror classes inherit from their base class
    (declared outside the sources): the HTTP client they were built with. *)
Record MirrorSelf : Type := { http_client : AsyncClient }.

Definition MinoMirror_base_url : string := "https://catboy.best".

Definition MinoMirror_fetch_beatmap_zip_data (self : MirrorSelf)
           (beatmapset_id : Z) : Call (option bytes) :=
  def_ tt
    (try_except
       (logging_info
          ("Fetching beatmapset osz2 from mino: " ++ str_int beatmapset_id)%string
          NoExtra ;;
        response <- call (AsyncClient_get (http_client self)
                            (MinoMirror_base_url ++ "/d/"
                               ++ str_int beatmapset_id)%string []) ;;
        raise_for_status response ;;
        ret (Some (Response_read response)))
       (fun exc =>
          logging_warning "Failed to fetch beatmap from catboy.best" exc ;;
          ret None)).

Definition RippleMirror_name : string := "ripple".
Definition RippleMirror_base_url : string := "https://storage.ripple.moe".

Definition RippleMirror_fetch_beatmap_zip_data (self : MirrorSelf)
           (beatmapset_id : Z) : Call (option bytes) :=
  def_ tt
    (try_except
       (logging_info
          ("Fetching beatmapset osz2 from ripple: "
             ++ str_int beatmapset_id)%string
          NoExtra ;;
        response <- call (AsyncClient_get (http_client self)
                            (RippleMirror_base_url ++ "/d/"
                               ++ str_int beatmapset_id)%string []) ;;
        if status_code response =? 404 then ret None
        else
          raise_for_status response ;;
          ret (Some (Response_read response)))
       (fun exc =>
          logging_warning "Failed to fetch beatmap from ripple.moe" exc ;;
          raise (MirrorRequestError exc))).

(** The closed set of mirror backends. *)
Inductive MirrorBackend : Type := MinoMirror | RippleMirror.

Definition fetch_beatmap_zip_data (backend : MirrorBackend)
  : MirrorSelf -> Z -> Call (option bytes) :=
  match backend with
  | MinoMirror => MinoMirror_fetch_beatmap_zip_data
  | RippleMirror => RippleMirror_fetch_beatmap_zip_data
  end.

(** ** Vocabulary of the statements *)

(** The record [log_osu_api_response] writes when the clock reads [now]. *)
Definition ratelimit_record (now : datetime) (response : Response)
  : LogRecord :=
  {| levelname := INFO;
     msg := "Made authorized request to osu! api";
     exc_info := None;
     extra := RequestExtra (request_url response)
                {| remaining := headers response "X-Ratelimit-Remaining";
                   limit := headers response "X-Ratelimit-Limit";
                   reset_utc := isoformat (replace now 0 0) |} |}.

(** The record an [except] clause of the API client writes for [exc] when
    [osu_api_response_data] holds [payload]. *)
Definition failure_record (m : string) (exc : PyExc) (payload : Json)
  : LogRecord :=
  {| levelname := ERROR; msg := m; exc_info := Some exc;
     extra := ResponseDataExtra payload |}.

(** The body of a 2xx response does not decode into the model validated by
    [validate]: the exception raised, and what [osu_api_response_data]
    holds at that moment. *)
Inductive decode_failure {T : Type}
          (validate : list (string * Json) -> T + PyExc)
          (response : Response) : PyExc -> Json -> Prop :=
| body_not_json (e : PyExc) :
    json_loads (content response) = inr e ->
    decode_failure validate response e JNull
| body_null :
    json_loads (content response) = inl JNull ->
    decode_failure validate response AssertionError JNull
| body_not_mapping (v : Json) :
    json_loads (content response) = inl v ->
    v <> JNull -> (forall members, v <> JObj members) ->
    decode_failure validate response TypeError v
| body_invalid (members : list (string * Json)) (e : PyExc) :
    json_loads (content response) = inl (JObj members) ->
    validate members = inr e ->
    decode_failure validate response e (JObj members).

(** The body of a response decodes into [v]. *)
Definition decodes_to {T : Type}
           (validate : list (string * Json) -> T + PyExc)
           (response : Response) (v : T) : Prop :=
  exists members,
    json_loads (content response) = inl (JObj members)
    /\ validate members = inl v.

(** The upstream API answers [request] with [response] in world [w]. *)
Definition upstream_answers (w : World) (request : Request)
           (response : Response) : Prop :=
  transport w request = Responded response.

(** The world once the API client has sent [request], received [response]
    and run its response hook. *)
Definition after_response (response : Response) (request : Request)
           (w : World) : World :=
  snd (log_osu_api_response response (record_request request w)).

(** What the API client's functions do with a response that is not
    short-circuited, from world [w1] on: the functional reading of
    [raise_for_status], [json], the assertion, the model constructor and
    the [except] clause. *)
Definition client_outcome {T R : Type} (m : string)
           (validate : list (string * Json) -> T + PyExc) (wrap : T -> R)
           (response : Response) (w1 : World) : Outcome R * World :=
  if is_success response then
    match json_loads (content response) with
    | inr e => (Raise e, write_log (failure_record m e JNull) w1)
    | inl JNull =>
        (Raise AssertionError,
         write_log (failure_record m AssertionError JNull) w1)
    | inl (JObj members) =>
        match validate members with
        | inl v => (Return (wrap v), w1)
        | inr e => (Raise e, write_log (failure_record m e (JObj members)) w1)
        end
    | inl v => (Raise TypeError, write_log (failure_record m TypeError v) w1)
    end
  else
    (Raise (HTTPStatusError (status_code response)),
     write_log
       (failure_record m (HTTPStatusError (status_code response)) JNull) w1).

(** The request [search_beatmapsets] builds from its arguments. *)
Definition search_request (query : string)
           (ranked_status : SearchLegacyRankedStatus.t) (mode : GameMode)
           (page page_size : Z) (cursor_string : option string) : Request :=
  build_request osu_api_v2_http_client "beatmapsets/search"
    [ ("q", PStr query);
      ("m", PGameMode mode);
      ("r", PRankedStatus ranked_status);
      ("page", PInt page);
      ("limit", PInt page_size);
      ("cursor_string",
       match cursor_string with
       | Some s => PStr s
       | None => PNone
       end) ].

Definition mirror_base_url (backend : MirrorBackend) : string :=
  match backend with
  | MinoMirror => MinoMirror_base_url
  | RippleMirror => RippleMirror_base_url
  end.

(** The line a backend logs before it asks its mirror. *)
Definition mirror_announcement (backend : MirrorBackend) (beatmapset_id : Z)
  : LogRecord :=
  {| levelname := INFO;
     msg := match backend with
            | MinoMirror =>
                ("Fetching beatmapset osz2 from mino: "
                   ++ str_int beatmapset_id)%string
            | RippleMirror =>
                ("Fetching beatmapset osz2 from ripple: "
                   ++ str_int beatmapset_id)%string
            end;
     exc_info := None;
     extra := NoExtra |}.

(** What a backend's HTTP client hands back for the archive of
    [beatmapset_id]: a response, or the exception it raised. *)
Definition mirror_response (backend : MirrorBackend) (self : MirrorSelf)
           (beatmapset_id : Z) (w : World) : Outcome Response * World :=
  AsyncClient_get (http_client self)
    (mirror_base_url backend ++ "/d/" ++ str_int beatmapset_id)%string []
    (write_log (mirror_announcement backend beatmapset_id) w).

(** The warning a backend logs when its attempt failed with [exc]. *)
Definition mirror_warning (backend : MirrorBackend) (exc : PyExc)
  : LogRecord :=
  {| levelname := WARNING;
     msg := match backend with
            | MinoMirror => "Failed to fetch beatmap from catboy.best"
            | RippleMirror => "Failed to fetch beatmap from ripple.moe"
            end;
     exc_info := Some exc;
     extra := NoExtra |}.

(** ** Scenarios

    Concrete upstreams, used to run the adapters on the scenarios of the
    specification: beatmap 999999 is unknown upstream (404), beatmap 42 makes
    the upstream fail (500), beatmap 7 answers 200 with a body that is not
    JSON, every search is answered 404; the archive of beatmapset 123 is
    missing (404) on ripple and served by mino, which misses 999999. *)

Definition scenario_clock : datetime :=
  {| year := 2024; month := 6; day := 20;
     hour := 12; minute := 34; second := 56; microsecond := 789 |}.

Definition scenario_headers (key : string) : option string :=
  if String.eqb key "X-Ratelimit-Remaining" then Some "1199"
  else if String.eqb key "X-Ratelimit-Limit" then Some "1200"
  else None.

Definition scenario_response (u : string) (status : Z) (body : string)
  : Response :=
  {| request_url := u; status_code := status;
     headers := scenario_headers;
     content := list_byte_of_string body |}.

Definition scenario_transport (request : Request) : HttpOutcome :=
  let u := url request in
  if String.eqb u "https://osu.ppy.sh/api/v2/beatmaps/999999"
     || String.eqb u "https://osu.ppy.sh/api/v2/beatmapsets/999999"
     || String.eqb u "https://osu.ppy.sh/api/v2/beatmapsets/search"
     || String.eqb u "https://storage.ripple.moe/d/123"
     || String.eqb u "https://catboy.best/d/999999"
  then Responded (scenario_response u 404 "")
  else if String.eqb u "https://osu.ppy.sh/api/v2/beatmaps/42"
          || String.eqb u "https://osu.ppy.sh/api/v2/beatmapsets/42"
  then Responded (scenario_response u 500 "")
  else if String.eqb u "https://osu.ppy.sh/api/v2/beatmaps/7"
          || String.eqb u "https://osu.ppy.sh/api/v2/beatmapsets/7"
  then Responded (scenario_response u 200 "<html>")
  else if String.eqb u "https://catboy.best/d/123"
  then Responded (scenario_response u 200 "OSZ2DATA")
  else Failed (TransportError "ConnectTimeout").

Definition scenario_world : World :=
  {| clock := scenario_clock; transport := scenario_transport;
     log := []; sent := [] |}.

(** A decoder that accepts only the empty JSON object. *)
Definition scenario_json_loads (body : bytes) : Json + PyExc :=
  match string_of_list_byte body with
  | "{}"%string => inl (JObj [])
  | "null"%string => inl JNull
  | _ => inr JSONDecodeError
  end.

Definition scenario_validate (members : list (string * Json))
  : unit + PyExc :=
  inr ValidationError.

Definition scenario_mirror : MirrorSelf :=
  {| http_client := {| base_url := ""; event_hooks := [] |} |}.

(** The records the response hook of the API client writes for
    [response] when the clock reads [now]. *)
Definition hook_records (now : datetime) (response : Response)
  : list LogRecord :=
  if String.eqb (request_url response) OSU_API_V2_TOKEN_ENDPOINT
     || (status_code response =? 401)
  then []
  else [ratelimit_record now response].

(** A clock reading within the ranges [datetime] admits. *)
Definition valid_datetime (dt : datetime) : Prop :=
  1 <= Z.of_nat (year dt) <= 9999
  /\ 1 <= Z.of_nat (month dt) <= 12
  /\ 1 <= Z.of_nat (day dt) <= 31
  /\ Z.of_nat (hour dt) <= 23
  /\ Z.of_nat (minute dt) <= 59
  /\ Z.of_nat (second dt) <= 59
  /\ Z.of_nat (microsecond dt) <= 999999.

(** An upstream that answers every request 200 with an empty JSON object,
    and one that answers every request 401. *)
Definition scenario_world_ok : World :=
  {| clock := scenario_clock;
     transport := fun request =>
                    Responded (scenario_response (url request) 200 "{}");
     log := []; sent := [] |}.

Definition scenario_world_unauthorized : World :=
  {| clock := scenario_clock;
     transport := fun request =>
                    Responded (scenario_response (url request) 401 "");
     log := []; sent := [] |}.

(** An upstream whose every [await] is cancelled. *)
Definition scenario_world_cancelled : World :=
  {| clock := scenario_clock;
     transport := fun _ => Interrupted CancelledError;
     log := []; sent := [] |}.

(** A validator that accepts every mapping. *)
Definition scenario_accept (members : list (string * Json)) : unit + PyExc :=
  inl tt.

(** The shape every call of the API client leaves in the log: first what
    the hook wrote, at most one record and a rate-limit record if any; then
    one error record, for the exception raised and carrying
    [osu_api_response_data], exactly when the call raised an [Exception].
    Nothing is removed, and the clock and the upstream stay as they were. *)
Definition api_log_shape {R : Type} (w : World)
           (result : Outcome R * World) : Prop :=
  exists ratelimit errors,
    log (snd result) = log w ++ ratelimit ++ errors
    /\ (List.length ratelimit <= 1)%nat
    /\ Forall (fun r => is_ratelimit_log r = true) ratelimit
    /\ match fst result with
       | Raise e =>
           exists m payload, errors = [failure_record m e payload]
       | Return _ => errors = []
       | RaiseBase _ => errors = []
       end
    /\ clock (snd result) = clock w
    /\ transport (snd result) = transport w.

(** [s] is made of exactly [k] characters. *)
Fixpoint has_length (k : nat) (s : string) : bool :=
  match k, s with
  | O, EmptyString => true
  | S k', String _ s' => has_length k' s'
  | _, _ => false
  end.

(** * Properties *)

(** ** The legacy ranked-status mapping *)

(** C4. The mapping is total over the internal ranked-status enum: every
    member is sent either to "no filter" or to one member of the legacy
    enum, whose integer is one of 0, 2, 3, 4, 5, 6, 7, 8; the result is a
    function of the argument alone (two calls on the same status agree), and
    the table is the one the source lists. *)
Theorem from_osu_api_status_total :
  (forall s : RankedStatus.t,
      SearchLegacyRankedStatus.from_osu_api_status s = None
      \/ exists l,
          SearchLegacyRankedStatus.from_osu_api_status s = Some l
          /\ In (SearchLegacyRankedStatus.value l) [0; 2; 3; 4; 5; 6; 7; 8])
  /\ (forall s1 s2 : RankedStatus.t,
         s1 = s2 ->
         SearchLegacyRankedStatus.from_osu_api_status s1
         = SearchLegacyRankedStatus.from_osu_api_status s2)
  /\ map (fun s => option_map SearchLegacyRankedStatus.value
                     (SearchLegacyRankedStatus.from_osu_api_status s))
         RankedStatus.members
     = [None; Some 4; None; Some 0; Some 0; Some 3; Some 8]
  /\ map SearchLegacyRankedStatus.value
         [SearchLegacyRankedStatus.RANKED;
          SearchLegacyRankedStatus.FAVOURITES;
          SearchLegacyRankedStatus.QUALIFIED;
          SearchLegacyRankedStatus.PENDING;
          SearchLegacyRankedStatus.GRAVEYARD;
          SearchLegacyRankedStatus.MINE;
          SearchLegacyRankedStatus.ANY;
          SearchLegacyRankedStatus.LOVED]
     = [0; 2; 3; 4; 5; 6; 7; 8].
Proof.
  repeat split.
  - intros s; destruct s; cbn;
      first [ now left | right; eexists; split; [reflexivity | cbn; tauto] ].
  - intros s1 s2 ->; reflexivity.
Qed.

(** C10. The mapping only ever produces RANKED, PENDING, QUALIFIED, LOVED or
    "no filter"; internal RANKED and APPROVED both go to legacy RANKED = 0, so
    it is not injective; FAVOURITES, GRAVEYARD, MINE and ANY are produced for
    no internal status. *)
Theorem from_osu_api_status_range :
  (forall s : RankedStatus.t,
      In (SearchLegacyRankedStatus.from_osu_api_status s)
         [Some SearchLegacyRankedStatus.RANKED;
          Some SearchLegacyRankedStatus.PENDING;
          Some SearchLegacyRankedStatus.QUALIFIED;
          Some SearchLegacyRankedStatus.LOVED;
          None])
  /\ SearchLegacyRankedStatus.from_osu_api_status RankedStatus.RANKED
     = Some SearchLegacyRankedStatus.RANKED
  /\ SearchLegacyRankedStatus.from_osu_api_status RankedStatus.APPROVED
     = Some SearchLegacyRankedStatus.RANKED
  /\ SearchLegacyRankedStatus.value SearchLegacyRankedStatus.RANKED = 0
  /\ ~ (forall s1 s2 : RankedStatus.t,
          SearchLegacyRankedStatus.from_osu_api_status s1
          = SearchLegacyRankedStatus.from_osu_api_status s2 -> s1 = s2)
  /\ (forall (s : RankedStatus.t) (l : SearchLegacyRankedStatus.t),
         In l [SearchLegacyRankedStatus.FAVOURITES;
               SearchLegacyRankedStatus.GRAVEYARD;
               SearchLegacyRankedStatus.MINE;
               SearchLegacyRankedStatus.ANY] ->
         SearchLegacyRankedStatus.from_osu_api_status s <> Some l).
Proof.
  split; [| split; [| split; [| split; [| split]]]];
    try reflexivity.
  - intros s; destruct s; cbn; tauto.
  - intros inj.
    specialize (inj RankedStatus.RANKED RankedStatus.APPROVED eq_refl).
    discriminate inj.
  - intros s l Hl; cbn in Hl.
    destruct Hl as [<- | [<- | [<- | [<- | []]]]];
      destruct s; cbn; discriminate.
Qed.

(** ** The rate-limit hook *)

Lemma app_one_neq {A : Type} (l : list A) (x : A) : l ++ [x] <> l.
Proof.
  intros H. apply (f_equal (@List.length A)) in H.
  rewrite length_app in H; cbn in H; lia.
Qed.

Lemma log_osu_api_response_run (response : Response) (w : World) :
  log_osu_api_response response w =
  (Return tt,
   if String.eqb (request_url response) OSU_API_V2_TOKEN_ENDPOINT
      || (status_code response =? 401)
   then w
   else write_log (ratelimit_record (clock w) response) w).
Proof.
  unfold log_osu_api_response, def_.
  destruct (String.eqb (request_url response) OSU_API_V2_TOKEN_ENDPOINT
            || (status_code response =? 401)); reflexivity.
Qed.

(** C5. The hook returns normally, and writes one rate-limit record exactly
    when the request URL is not the token endpoint and the status is not
    401; it leaves the log as it was exactly when the request was the token
    exchange or the status is 401. *)
Theorem log_osu_api_response_emits_iff (response : Response) (w : World) :
  fst (log_osu_api_response response w) = Return tt
  /\ ((exists r, log (snd (log_osu_api_response response w)) = log w ++ [r]
                 /\ is_ratelimit_log r = true)
      <-> (request_url response <> OSU_API_V2_TOKEN_ENDPOINT
           /\ status_code response <> 401))
  /\ (log (snd (log_osu_api_response response w)) = log w
      <-> (request_url response = OSU_API_V2_TOKEN_ENDPOINT
           \/ status_code response = 401)).
Proof.
  rewrite log_osu_api_response_run; cbn [fst snd].
  split; [reflexivity |].
  destruct (String.eqb_spec (request_url response) OSU_API_V2_TOKEN_ENDPOINT)
    as [Hu | Hu];
    destruct (Z.eqb_spec (status_code response) 401) as [Hs | Hs];
    cbn [orb log write_log].
  1-3: split; split;
    [ intros [r [H _]]; symmetry in H; exfalso; exact (app_one_neq _ _ H)
    | intros [H1 H2]; congruence
    | intros _; tauto
    | intros _; reflexivity ].
  split; split.
  - intros _; split; assumption.
  - intros _. exists (ratelimit_record (clock w) response).
    split; reflexivity.
  - intros H; exfalso; exact (app_one_neq _ _ H).
  - intros [H | H]; congruence.
Qed.

(** C6. Whenever the hook writes a record, its [reset_utc] is the ISO form
    of the clock reading with [second] and [microsecond] set to zero and
    year, month, day, hour and minute unchanged: the date, "T", the hour
    and the minute of the clock, then ":00+00:00". *)
Theorem reset_utc_is_start_of_minute
        (response : Response) (w : World) (r : LogRecord) :
  log (snd (log_osu_api_response response w)) = log w ++ [r] ->
  exists (u : string) (rl : Ratelimit),
    extra r = RequestExtra u rl
    /\ reset_utc rl
       = isoformat {| year := year (clock w); month := month (clock w);
                      day := day (clock w); hour := hour (clock w);
                      minute := minute (clock w);
                      second := 0; microsecond := 0 |}
    /\ reset_utc rl
       = (isodate (clock w) ++ "T" ++ zfill 2 (hour (clock w)) ++ ":"
            ++ zfill 2 (minute (clock w)) ++ ":00+00:00")%string.
Proof.
  rewrite log_osu_api_response_run; cbn [snd].
  destruct (String.eqb (request_url response) OSU_API_V2_TOKEN_ENDPOINT
            || (status_code response =? 401)).
  - intros H; symmetry in H; exfalso; exact (app_one_neq _ _ H).
  - cbn [log write_log]. intros H.
    apply app_inj_tail in H as [_ <-].
    eexists; eexists; split; [reflexivity | split; reflexivity].
Qed.

(** ** The API client: shared steps *)

Lemma osu_api_get_run (u : string) (p : list (string * ParamValue))
      (w : World) :
  AsyncClient_get osu_api_v2_http_client u p w =
  match transport w (build_request osu_api_v2_http_client u p) with
  | Responded response =>
      (Return response,
       after_response response (build_request osu_api_v2_http_client u p) w)
  | Failed e =>
      (Raise e, record_request (build_request osu_api_v2_http_client u p) w)
  | Interrupted b =>
      (RaiseBase b,
       record_request (build_request osu_api_v2_http_client u p) w)
  end.
Proof.
  unfold AsyncClient_get, def_, bind, send, after_response.
  destruct (transport w (build_request osu_api_v2_http_client u p))
    as [response | e | b]; [| reflexivity | reflexivity].
  cbn [osu_api_v2_http_client event_hooks run_hooks].
  unfold bind, call.
  rewrite log_osu_api_response_run; reflexivity.
Qed.

Lemma after_response_log (response : Response) (request : Request)
      (w : World) :
  exists new,
    log (after_response response request w) = log w ++ new
    /\ Forall (fun r => is_ratelimit_log r = true) new.
Proof.
  unfold after_response. rewrite log_osu_api_response_run; cbn [snd].
  destruct (String.eqb (request_url response) OSU_API_V2_TOKEN_ENDPOINT
            || (status_code response =? 401)).
  - exists []. rewrite app_nil_r. split; [reflexivity | constructor].
  - eexists [_]. split; [reflexivity |].
    constructor; [reflexivity | constructor].
Qed.

Lemma after_response_sent (response : Response) (request : Request)
      (w : World) :
  sent (after_response response request w) = sent w ++ [request].
Proof.
  unfold after_response. rewrite log_osu_api_response_run; cbn [snd].
  destruct (String.eqb (request_url response) OSU_API_V2_TOKEN_ENDPOINT
            || (status_code response =? 401)); reflexivity.
Qed.

Lemma ratelimit_log_not_payload (r : LogRecord) :
  is_ratelimit_log r = true -> is_payload_log r = false.
Proof.
  unfold is_ratelimit_log, is_payload_log.
  destruct (extra r); congruence.
Qed.

Lemma Forall_ratelimit_not_payload (l : list LogRecord) :
  Forall (fun r => is_ratelimit_log r = true) l ->
  Forall (fun r => is_payload_log r = false) l.
Proof.
  intros H; eapply Forall_impl; [| exact H].
  intros r; apply ratelimit_log_not_payload.
Qed.

Section ClientOutcome.

Context {T R : Type}.
Variable m : string.
Variable validate : list (string * Json) -> T + PyExc.
Variable wrap : T -> R.

Lemma client_outcome_status (response : Response) (w1 : World) :
  is_success response = false ->
  client_outcome m validate wrap response w1 =
  (Raise (HTTPStatusError (status_code response)),
   write_log
     (failure_record m (HTTPStatusError (status_code response)) JNull) w1).
Proof.
  intros H; unfold client_outcome; rewrite H; reflexivity.
Qed.

Lemma client_outcome_failure (response : Response) (w1 : World)
      (e : PyExc) (payload : Json) :
  is_success response = true ->
  decode_failure validate response e payload ->
  client_outcome m validate wrap response w1 =
  (Raise e, write_log (failure_record m e payload) w1).
Proof.
  intros Hs Hd; unfold client_outcome; rewrite Hs.
  destruct Hd as [e He | Hn | v Hv Hnull Hobj | members e Hj Hv].
  - rewrite He; reflexivity.
  - rewrite Hn; reflexivity.
  - rewrite Hv. destruct v; try reflexivity.
    + contradiction Hnull; reflexivity.
    + contradiction (Hobj members); reflexivity.
  - rewrite Hj, Hv; reflexivity.
Qed.

Lemma client_outcome_success (response : Response) (w1 : World) (v : T) :
  is_success response = true ->
  decodes_to validate response v ->
  client_outcome m validate wrap response w1 = (Return (wrap v), w1).
Proof.
  intros Hs [members [Hj Hv]]; unfold client_outcome.
  rewrite Hs, Hj, Hv; reflexivity.
Qed.

Lemma decode_cases (response : Response) :
  (exists v, decodes_to validate response v)
  \/ (exists e payload, decode_failure validate response e payload).
Proof.
  destruct (json_loads (content response)) as [v | e] eqn:Hj.
  - destruct v as [| b | n | f | s | items | members].
    7: { destruct (validate members) as [x | e] eqn:Hv.
         - left; exists x, members; split; assumption.
         - right; exists e, (JObj members).
           apply body_invalid; assumption. }
    1: { right; exists AssertionError, JNull.
         apply body_null; assumption. }
    all: right; eexists TypeError, _;
      apply (body_not_mapping validate response _ Hj);
      [discriminate | intros; discriminate].
  - right; exists e, JNull. apply body_not_json; assumption.
Qed.

Lemma client_outcome_return (response : Response) (w1 : World) (x : R) :
  fst (client_outcome m validate wrap response w1) = Return x ->
  is_success response = true
  /\ snd (client_outcome m validate wrap response w1) = w1
  /\ exists v, decodes_to validate response v /\ x = wrap v.
Proof.
  destruct (is_success response) eqn:Hs.
  - destruct (decode_cases response) as [[v Hv] | [e [payload Hd]]].
    + rewrite (client_outcome_success response w1 v Hs Hv); cbn.
      intros H; injection H as <-.
      split; [reflexivity | split; [reflexivity |]].
      exists v; split; [assumption | reflexivity].
    + rewrite (client_outcome_failure response w1 e payload Hs Hd); cbn.
      discriminate.
  - rewrite (client_outcome_status response w1 Hs); cbn. discriminate.
Qed.

End ClientOutcome.

Lemma get_beatmap_run (beatmap_id : Z) (w : World) :
  get_beatmap beatmap_id w =
  let request := build_request osu_api_v2_http_client
                   ("beatmaps/" ++ str_int beatmap_id)%string [] in
  match transport w request with
  | Failed e =>
      (Raise e,
       write_log
         (failure_record "Failed to fetch beatmap from osu! API" e JNull)
         (record_request request w))
  | Interrupted b => (RaiseBase b, record_request request w)
  | Responded response =>
      if status_code response =? 404
      then (Return None, after_response response request w)
      else client_outcome "Failed to fetch beatmap from osu! API"
             BeatmapExtended_validate Some response
             (after_response response request w)
  end.
Proof.
  unfold get_beatmap, def_, try_except, bind, call.
  rewrite osu_api_get_run. cbv zeta.
  destruct (transport w _) as [response | e | b];
    [| reflexivity | reflexivity].
  destruct (status_code response =? 404); [reflexivity |].
  unfold client_outcome, raise_for_status, Response_json.
  destruct (is_success response); [| reflexivity].
  destruct (json_loads (content response)) as [v | e]; [| reflexivity].
  destruct v; try reflexivity.
  cbn. destruct (BeatmapExtended_validate members); reflexivity.
Qed.

Lemma get_beatmapset_run (beatmapset_id : Z) (w : World) :
  get_beatmapset beatmapset_id w =
  let request := build_request osu_api_v2_http_client
                   ("beatmapsets/" ++ str_int beatmapset_id)%string [] in
  match transport w request with
  | Failed e =>
      (Raise e,
       write_log
         (failure_record "Failed to fetch beatmapset from osu! API" e JNull)
         (record_request request w))
  | Interrupted b => (RaiseBase b, record_request request w)
  | Responded response =>
      if status_code response =? 404
      then (Return None, after_response response request w)
      else client_outcome "Failed to fetch beatmapset from osu! API"
             BeatmapsetExtended_validate Some response
             (after_response response request w)
  end.
Proof.
  unfold get_beatmapset, def_, try_except, bind, call.
  rewrite osu_api_get_run. cbv zeta.
  destruct (transport w _) as [response | e | b];
    [| reflexivity | reflexivity].
  destruct (status_code response =? 404); [reflexivity |].
  unfold client_outcome, raise_for_status, Response_json.
  destruct (is_success response); [| reflexivity].
  destruct (json_loads (content response)) as [v | e]; [| reflexivity].
  destruct v; try reflexivity.
  cbn. destruct (BeatmapsetExtended_validate members); reflexivity.
Qed.

Lemma search_beatmapsets_run (query : string)
      (ranked_status : SearchLegacyRankedStatus.t) (mode : GameMode)
      (page page_size : Z) (cursor_string : option string) (w : World) :
  search_beatmapsets query ranked_status mode page page_size cursor_string w =
  let request :=
    search_request query ranked_status mode page page_size cursor_string in
  match transport w request with
  | Failed e =>
      (Raise e,
       write_log
         (failure_record "Failed to fetch beatmapsets from osu! API" e JNull)
         (record_request request w))
  | Interrupted b => (RaiseBase b, record_request request w)
  | Responded response =>
      client_outcome "Failed to fetch beatmapsets from osu! API"
        BeatmapsetSearchResponse_validate (fun v => v) response
        (after_response response request w)
  end.
Proof.
  unfold search_beatmapsets, search_request, def_, try_except, bind, call.
  rewrite osu_api_get_run. cbv zeta.
  destruct (transport w _) as [response | e | b];
    [| reflexivity | reflexivity].
  unfold client_outcome, raise_for_status, Response_json.
  destruct (is_success response); [| reflexivity].
  destruct (json_loads (content response)) as [v | e]; [| reflexivity].
  destruct v; try reflexivity.
  cbn. destruct (BeatmapsetSearchResponse_validate members); reflexivity.
Qed.

Lemma failure_logged (response : Response) (request : Request) (w : World)
      (r : LogRecord) :
  exists new,
    log (write_log r (after_response response request w))
    = log w ++ new ++ [r]
    /\ Forall (fun x => is_payload_log x = false) new.
Proof.
  destruct (after_response_log response request w) as [new [Hlog Hnew]].
  exists new; split.
  - cbn [log write_log]. rewrite Hlog, app_assoc; reflexivity.
  - apply Forall_ratelimit_not_payload; assumption.
Qed.

Lemma nothing_but_ratelimit_logged (response : Response) (request : Request)
      (w : World) :
  exists new,
    log (after_response response request w) = log w ++ new
    /\ Forall (fun x => is_payload_log x = false) new.
Proof.
  destruct (after_response_log response request w) as [new [Hlog Hnew]].
  exists new; split; [assumption |].
  apply Forall_ratelimit_not_payload; assumption.
Qed.

Lemma success_not_404 (response : Response) :
  is_success response = true -> (status_code response =? 404) = false.
Proof.
  unfold is_success; intros H.
  apply andb_prop in H as [_ H]. apply Z.leb_le in H.
  apply Z.eqb_neq; lia.
Qed.

Lemma not_found_not_success (response : Response) :
  status_code response = 404 -> is_success response = false.
Proof.
  unfold is_success; intros ->; reflexivity.
Qed.

(** ** [get_beatmap] *)

(** C1. [get_beatmap] returns [None] exactly when the upstream answers with
    status 404.  On that path nothing is raised and no record carrying
    [osu_api_response_data] is written.  For any other status outside
    200..299 it raises the status error, and when the body of a 2xx answer
    does not decode it raises the decoder's exception; in both cases the last
    record of the log is then the error record carrying what
    [osu_api_response_data] held ([None] when the failure came before the
    body was parsed), and the exception is the one the caller receives. *)
Theorem get_beatmap_contract (beatmap_id : Z) (w : World) :
  let request := build_request osu_api_v2_http_client
                   ("beatmaps/" ++ str_int beatmap_id)%string [] in
  let failed := failure_record "Failed to fetch beatmap from osu! API" in
  (fst (get_beatmap beatmap_id w) = Return None
   <-> exists response,
         upstream_answers w request response /\ status_code response = 404)
  /\ (forall response,
         upstream_answers w request response ->
         status_code response = 404 ->
         fst (get_beatmap beatmap_id w) = Return None
         /\ exists new,
             log (snd (get_beatmap beatmap_id w)) = log w ++ new
             /\ Forall (fun r => is_payload_log r = false) new)
  /\ (forall response,
         upstream_answers w request response ->
         status_code response <> 404 ->
         is_success response = false ->
         fst (get_beatmap beatmap_id w)
         = Raise (HTTPStatusError (status_code response))
         /\ exists new,
             log (snd (get_beatmap beatmap_id w))
             = log w ++ new
                 ++ [failed (HTTPStatusError (status_code response)) JNull]
             /\ Forall (fun r => is_payload_log r = false) new)
  /\ (forall response e payload,
         upstream_answers w request response ->
         is_success response = true ->
         decode_failure BeatmapExtended_validate response e payload ->
         fst (get_beatmap beatmap_id w) = Raise e
         /\ exists new,
             log (snd (get_beatmap beatmap_id w))
             = log w ++ new ++ [failed e payload]
             /\ Forall (fun r => is_payload_log r = false) new).
Proof.
  cbv zeta. unfold upstream_answers.
  rewrite get_beatmap_run; cbv zeta.
  split; [| split; [| split]].
  - split.
    + destruct (transport w _) as [response | e | b] eqn:Ht;
        [| discriminate | discriminate].
      destruct (Z.eqb_spec (status_code response) 404) as [H404 | H404].
      * intros _; exists response; split; [reflexivity | assumption].
      * intros H. apply client_outcome_return in H as [_ [_ [v [_ Hv]]]].
        discriminate Hv.
    + intros [response [-> H404]]. rewrite H404; reflexivity.
  - intros response -> H404. rewrite H404; cbn [Z.eqb Pos.eqb fst snd].
    split; [reflexivity |]. apply nothing_but_ratelimit_logged.
  - intros response -> H404 Hs.
    apply Z.eqb_neq in H404; rewrite H404.
    rewrite (client_outcome_status _ _ _ _ _ Hs); cbn [fst snd].
    split; [reflexivity |]. apply failure_logged.
  - intros response e payload -> Hs Hd.
    rewrite (success_not_404 _ Hs).
    rewrite (client_outcome_failure _ _ _ _ _ _ _ Hs Hd); cbn [fst snd].
    split; [reflexivity |]. apply failure_logged.
Qed.

(** ** [get_beatmapset] *)

Lemma client_outcome_sent {T R : Type} (m : string)
      (validate : list (string * Json) -> T + PyExc) (wrap : T -> R)
      (response : Response) (w1 : World) :
  sent (snd (client_outcome m validate wrap response w1)) = sent w1.
Proof.
  unfold client_outcome.
  destruct (is_success response); [| reflexivity].
  destruct (json_loads (content response)) as [v | e]; [| reflexivity].
  destruct v; try reflexivity.
  destruct (validate members); reflexivity.
Qed.

(** C8. [get_beatmapset] has the contract of [get_beatmap] on the endpoint
    [beatmapsets/{id}]: it sends exactly one request, a GET to that endpoint
    under the API base URL; it returns [None] exactly when the upstream
    answers 404; for any other status outside 200..299 and for a body that
    does not decode it raises the error, the error record carrying
    [osu_api_response_data] being the last one logged. *)
Theorem get_beatmapset_contract (beatmapset_id : Z) (w : World) :
  let request := build_request osu_api_v2_http_client
                   ("beatmapsets/" ++ str_int beatmapset_id)%string [] in
  let failed := failure_record "Failed to fetch beatmapset from osu! API" in
  (sent (snd (get_beatmapset beatmapset_id w)) = sent w ++ [request]
   /\ method request = "GET"
   /\ url request
      = ("https://osu.ppy.sh/api/v2/beatmapsets/"
           ++ str_int beatmapset_id)%string)
  /\ (fst (get_beatmapset beatmapset_id w) = Return None
      <-> exists response,
            upstream_answers w request response
            /\ status_code response = 404)
  /\ (forall response,
         upstream_answers w request response ->
         status_code response <> 404 ->
         is_success response = false ->
         fst (get_beatmapset beatmapset_id w)
         = Raise (HTTPStatusError (status_code response))
         /\ exists new,
             log (snd (get_beatmapset beatmapset_id w))
             = log w ++ new
                 ++ [failed (HTTPStatusError (status_code response)) JNull]
             /\ Forall (fun r => is_payload_log r = false) new)
  /\ (forall response e payload,
         upstream_answers w request response ->
         is_success response = true ->
         decode_failure BeatmapsetExtended_validate response e payload ->
         fst (get_beatmapset beatmapset_id w) = Raise e
         /\ exists new,
             log (snd (get_beatmapset beatmapset_id w))
             = log w ++ new ++ [failed e payload]
             /\ Forall (fun r => is_payload_log r = false) new).
Proof.
  cbv zeta. unfold upstream_answers.
  rewrite get_beatmapset_run; cbv zeta.
  split; [| split; [| split]].
  - split; [| split; reflexivity].
    destruct (transport w _) as [response | e | b];
    [| reflexivity | reflexivity].
    destruct (status_code response =? 404).
    + apply after_response_sent.
    + rewrite client_outcome_sent. apply after_response_sent.
  - split.
    + destruct (transport w _) as [response | e | b] eqn:Ht;
        [| discriminate | discriminate].
      destruct (Z.eqb_spec (status_code response) 404) as [H404 | H404].
      * intros _; exists response; split; [reflexivity | assumption].
      * intros H. apply client_outcome_return in H as [_ [_ [v [_ Hv]]]].
        discriminate Hv.
    + intros [response [-> H404]]. rewrite H404; reflexivity.
  - intros response -> H404 Hs.
    apply Z.eqb_neq in H404; rewrite H404.
    rewrite (client_outcome_status _ _ _ _ _ Hs); cbn [fst snd].
    split; [reflexivity |]. apply failure_logged.
  - intros response e payload -> Hs Hd.
    rewrite (success_not_404 _ Hs).
    rewrite (client_outcome_failure _ _ _ _ _ _ _ Hs Hd); cbn [fst snd].
    split; [reflexivity |]. apply failure_logged.
Qed.

(** ** [search_beatmapsets] *)

(** C2. Every failure of [search_beatmapsets] reaches the caller as a raised
    error whose record is the last one logged: a transport failure, any
    status outside 200..299 (404 included: there is no "not found" return),
    and a body that does not decode.  Whenever the call raises, that record
    is there; whenever it returns, the upstream answered 2xx and the value
    returned is the decoded search response. *)
Theorem search_beatmapsets_contract (query : string)
        (ranked_status : SearchLegacyRankedStatus.t) (mode : GameMode)
        (page page_size : Z) (cursor_string : option string) (w : World) :
  let request :=
    search_request query ranked_status mode page page_size cursor_string in
  let result :=
    search_beatmapsets query ranked_status mode page page_size cursor_string
      w in
  let failed := failure_record "Failed to fetch beatmapsets from osu! API" in
  (forall e,
      transport w request = Failed e ->
      fst result = Raise e
      /\ log (snd result) = log w ++ [failed e JNull])
  /\ (forall response,
         upstream_answers w request response ->
         is_success response = false ->
         fst result = Raise (HTTPStatusError (status_code response))
         /\ exists new,
             log (snd result)
             = log w ++ new
                 ++ [failed (HTTPStatusError (status_code response)) JNull]
             /\ Forall (fun r => is_payload_log r = false) new)
  /\ (forall response,
         upstream_answers w request response ->
         status_code response = 404 ->
         fst result = Raise (HTTPStatusError 404))
  /\ (forall response e payload,
         upstream_answers w request response ->
         is_success response = true ->
         decode_failure BeatmapsetSearchResponse_validate response e payload ->
         fst result = Raise e
         /\ exists new,
             log (snd result) = log w ++ new ++ [failed e payload]
             /\ Forall (fun r => is_payload_log r = false) new)
  /\ (forall e,
         fst result = Raise e ->
         exists before payload,
           log (snd result) = before ++ [failed e payload])
  /\ (forall v,
         fst result = Return v ->
         exists response,
           upstream_answers w request response
           /\ is_success response = true
           /\ decodes_to BeatmapsetSearchResponse_validate response v).
Proof.
  cbv zeta. unfold upstream_answers.
  rewrite search_beatmapsets_run; cbv zeta.
  split; [| split; [| split; [| split; [| split]]]].
  - intros e ->. split; reflexivity.
  - intros response -> Hs.
    rewrite (client_outcome_status _ _ _ _ _ Hs); cbn [fst snd].
    split; [reflexivity |]. apply failure_logged.
  - intros response -> H404.
    rewrite (client_outcome_status _ _ _ _ _ (not_found_not_success _ H404)).
    cbn [fst]. rewrite H404; reflexivity.
  - intros response e payload -> Hs Hd.
    rewrite (client_outcome_failure _ _ _ _ _ _ _ Hs Hd); cbn [fst snd].
    split; [reflexivity |]. apply failure_logged.
  - intros e.
    destruct (transport w _) as [response | e' | b]; [| | discriminate].
    + destruct (is_success response) eqn:Hs.
      * destruct (decode_cases BeatmapsetSearchResponse_validate response)
          as [[v Hv] | [e' [payload Hd]]].
        -- rewrite (client_outcome_success _ _ _ _ _ _ Hs Hv).
           discriminate.
        -- rewrite (client_outcome_failure _ _ _ _ _ _ _ Hs Hd).
           cbn [fst snd]. intros H; injection H as <-.
           eexists; exists payload; reflexivity.
      * rewrite (client_outcome_status _ _ _ _ _ Hs); cbn [fst snd].
        intros H; injection H as <-.
        eexists; exists JNull; reflexivity.
    + cbn [fst snd]. intros H; injection H as <-.
      eexists; exists JNull; reflexivity.
  - intros v.
    destruct (transport w _) as [response | e' | b];
      [| discriminate | discriminate].
    intros H. apply client_outcome_return in H as [Hs [_ [v' [Hv ->]]]].
    exists response; split; [reflexivity | split; assumption].
Qed.

(** C7. A cursor string given to [search_beatmapsets] is the value of the
    [cursor_string] query parameter of the one request the call sends, as
    it was given; the other parameters are the arguments under the keys
    [q], [m], [r], [page] and [limit]. *)
Theorem search_beatmapsets_cursor_passthrough (query : string)
        (ranked_status : SearchLegacyRankedStatus.t) (mode : GameMode)
        (page page_size : Z) (cursor : string) (w : World) :
  exists request,
    sent (snd (search_beatmapsets query ranked_status mode page page_size
                 (Some cursor) w))
    = sent w ++ [request]
    /\ params_get (params request) "cursor_string" = Some (PStr cursor)
    /\ method request = "GET"
    /\ url request = "https://osu.ppy.sh/api/v2/beatmapsets/search"
    /\ params request
       = [ ("q", PStr query); ("m", PGameMode mode);
           ("r", PRankedStatus ranked_status); ("page", PInt page);
           ("limit", PInt page_size); ("cursor_string", PStr cursor) ].
Proof.
  exists (search_request query ranked_status mode page page_size
            (Some cursor)).
  split; [| repeat split; reflexivity].
  rewrite search_beatmapsets_run; cbv zeta.
  destruct (transport w _) as [response | e | b];
    [| reflexivity | reflexivity].
  rewrite client_outcome_sent. apply after_response_sent.
Qed.

(** ** The mirror backends *)

Lemma MinoMirror_run (self : MirrorSelf) (beatmapset_id : Z) (w : World) :
  MinoMirror_fetch_beatmap_zip_data self beatmapset_id w =
  match mirror_response MinoMirror self beatmapset_id w with
  | (Return response, w2) =>
      if is_success response
      then (Return (Some (content response)), w2)
      else (Return None,
            write_log
              (mirror_warning MinoMirror
                 (HTTPStatusError (status_code response))) w2)
  | (Raise e, w2) =>
      (Return None, write_log (mirror_warning MinoMirror e) w2)
  | (RaiseBase b, w2) => (RaiseBase b, w2)
  end.
Proof.
  unfold MinoMirror_fetch_beatmap_zip_data, mirror_response, def_,
    try_except, bind, call, logging_info, emit.
  cbn [mirror_base_url].
  fold (mirror_announcement MinoMirror beatmapset_id).
  destruct (AsyncClient_get _ _ _ _) as [[response | e | b] w2];
    [| reflexivity | reflexivity].
  unfold raise_for_status.
  destruct (is_success response); reflexivity.
Qed.

Lemma RippleMirror_run (self : MirrorSelf) (beatmapset_id : Z) (w : World) :
  RippleMirror_fetch_beatmap_zip_data self beatmapset_id w =
  match mirror_response RippleMirror self beatmapset_id w with
  | (Return response, w2) =>
      if status_code response =? 404 then (Return None, w2)
      else if is_success response
      then (Return (Some (content response)), w2)
      else (Raise (MirrorRequestError
                     (HTTPStatusError (status_code response))),
            write_log
              (mirror_warning RippleMirror
                 (HTTPStatusError (status_code response))) w2)
  | (Raise e, w2) =>
      (Raise (MirrorRequestError e),
       write_log (mirror_warning RippleMirror e) w2)
  | (RaiseBase b, w2) => (RaiseBase b, w2)
  end.
Proof.
  unfold RippleMirror_fetch_beatmap_zip_data, mirror_response, def_,
    try_except, bind, call, logging_info, emit.
  cbn [mirror_base_url].
  fold (mirror_announcement RippleMirror beatmapset_id).
  destruct (AsyncClient_get _ _ _ _) as [[response | e | b] w2];
    [| reflexivity | reflexivity].
  destruct (status_code response =? 404); [reflexivity |].
  unfold raise_for_status.
  destruct (is_success response); reflexivity.
Qed.

(** C3. For both backends and every beatmapset id: when the backend's HTTP
    client hands back a response with status 404, [fetch_beatmap_zip_data]
    returns [None] and raises nothing. *)
Theorem fetch_beatmap_zip_data_404 (backend : MirrorBackend)
        (self : MirrorSelf) (beatmapset_id : Z) (w : World)
        (response : Response) :
  fst (mirror_response backend self beatmapset_id w) = Return response ->
  status_code response = 404 ->
  fst (fetch_beatmap_zip_data backend self beatmapset_id w) = Return None.
Proof.
  intros Hget H404.
  destruct backend; cbn [fetch_beatmap_zip_data].
  - rewrite MinoMirror_run.
    destruct (mirror_response MinoMirror self beatmapset_id w)
      as [o w2]; cbn [fst] in Hget; subst o.
    rewrite (not_found_not_success _ H404); reflexivity.
  - rewrite RippleMirror_run.
    destruct (mirror_response RippleMirror self beatmapset_id w)
      as [o w2]; cbn [fst] in Hget; subst o.
    rewrite H404; reflexivity.
Qed.

(** C9 (amended). [MinoMirror.fetch_beatmap_zip_data] raises no
    [Exception], for no beatmapset id, no HTTP client and no world: it
    returns [None] exactly when the client raised an [Exception] or handed
    back a response outside 200..299 (404 among them), and returns bytes
    exactly when the client handed back a 2xx response, the bytes being that
    response's body.  A [BaseException] that is not an [Exception] is not
    caught: the call lets it through exactly when the client's [get] did,
    unchanged and without logging a warning. *)
Theorem MinoMirror_catches_every_Exception (self : MirrorSelf)
        (beatmapset_id : Z) (w : World) :
  let result := fst (MinoMirror_fetch_beatmap_zip_data self beatmapset_id w) in
  let got := fst (mirror_response MinoMirror self beatmapset_id w) in
  (forall e, result <> Raise e)
  /\ (forall data,
         result = Return (Some data)
         <-> exists response,
               got = Return response
               /\ is_success response = true
               /\ data = content response)
  /\ (result = Return None
      <-> (exists e, got = Raise e)
          \/ exists response,
               got = Return response /\ is_success response = false)
  /\ (forall response,
         got = Return response ->
         status_code response = 404 ->
         result = Return None)
  /\ (forall b, result = RaiseBase b <-> got = RaiseBase b)
  /\ (forall b,
         got = RaiseBase b ->
         snd (MinoMirror_fetch_beatmap_zip_data self beatmapset_id w)
         = snd (mirror_response MinoMirror self beatmapset_id w)).
Proof.
  cbv zeta. rewrite MinoMirror_run.
  destruct (mirror_response MinoMirror self beatmapset_id w)
    as [[response | e | b0] w2]; cbn [fst snd].
  - destruct (is_success response) eqn:Hs; cbn [fst snd].
    + split; [discriminate | split; [| split; [| split; [| split]]]].
      * intros data; split.
        -- intros H; injection H as <-.
           exists response; repeat split; assumption.
        -- intros [r [Hr [_ ->]]]; injection Hr as <-; reflexivity.
      * split; [discriminate |].
        intros [[e He] | [r [Hr Hf]]]; [discriminate |].
        injection Hr as <-; congruence.
      * intros r Hr H404; injection Hr as <-.
        rewrite (not_found_not_success _ H404) in Hs; discriminate.
      * intros b; split; discriminate.
      * discriminate.
    + split; [discriminate | split; [| split; [| split; [| split]]]].
      * intros data; split; [discriminate |].
        intros [r [Hr [Hf _]]]; injection Hr as <-; congruence.
      * split; [| reflexivity].
        intros _; right; exists response; split; [reflexivity | assumption].
      * reflexivity.
      * intros b; split; discriminate.
      * discriminate.
  - split; [discriminate | split; [| split; [| split; [| split]]]].
    + intros data; split; [discriminate |].
      intros [r [Hr _]]; discriminate.
    + split; [| reflexivity].
      intros _; left; exists e; reflexivity.
    + reflexivity.
    + intros b; split; discriminate.
    + discriminate.
  - split; [discriminate | split; [| split; [| split; [| split]]]].
    + intros data; split; [discriminate |].
      intros [r [Hr _]]; discriminate.
    + split; [discriminate |].
      intros [[e He] | [r [Hr _]]]; discriminate.
    + discriminate.
    + intros b; split; intros H; injection H as <-; reflexivity.
    + reflexivity.
Qed.

(** * Further properties of the adapters *)

(** ** The API client: what a call leaves behind *)

Lemma after_response_exact (response : Response) (request : Request)
      (w : World) :
  log (after_response response request w)
  = log w ++ hook_records (clock w) response
  /\ clock (after_response response request w) = clock w
  /\ transport (after_response response request w) = transport w.
Proof.
  unfold after_response, hook_records.
  rewrite log_osu_api_response_run; cbn [snd].
  destruct (String.eqb (request_url response) OSU_API_V2_TOKEN_ENDPOINT
            || (status_code response =? 401)); cbn.
  - rewrite app_nil_r; repeat split.
  - repeat split.
Qed.

Lemma client_outcome_cases {T R : Type} (m : string)
      (validate : list (string * Json) -> T + PyExc) (wrap : T -> R)
      (response : Response) (w1 : World) :
  (exists v, client_outcome m validate wrap response w1 = (Return v, w1))
  \/ (exists e payload,
         client_outcome m validate wrap response w1
         = (Raise e, write_log (failure_record m e payload) w1)).
Proof.
  unfold client_outcome.
  destruct (is_success response); [| right; eauto].
  destruct (json_loads (content response)) as [v | e]; [| right; eauto].
  destruct v; try (right; eauto; fail).
  destruct (validate members); [left | right]; eauto.
Qed.

Lemma hook_records_shape (now : datetime) (response : Response) :
  Forall (fun r => is_ratelimit_log r = true) (hook_records now response)
  /\ (List.length (hook_records now response) <= 1)%nat.
Proof.
  unfold hook_records.
  destruct (String.eqb (request_url response) OSU_API_V2_TOKEN_ENDPOINT
            || (status_code response =? 401)); cbn; split; auto.
Qed.

Lemma client_outcome_shape {T R : Type} (m : string)
      (validate : list (string * Json) -> T + PyExc) (wrap : T -> R)
      (response : Response) (request : Request) (w : World) :
  api_log_shape w
    (client_outcome m validate wrap response
       (after_response response request w)).
Proof.
  destruct (after_response_exact response request w) as [Hl [Hc Ht]].
  destruct (hook_records_shape (clock w) response) as [Hp Hn].
  unfold api_log_shape.
  exists (hook_records (clock w) response).
  destruct (client_outcome_cases m validate wrap response
              (after_response response request w))
    as [[v ->] | [e [payload ->]]]; cbn [fst snd].
  - exists []. rewrite app_nil_r. repeat split; auto.
  - exists [failure_record m e payload].
    cbn [log write_log clock transport]. rewrite Hl, app_assoc.
    repeat split; eauto.
Qed.

Lemma transport_failure_shape {R : Type} (m : string) (e : PyExc)
      (request : Request) (w : World) :
  api_log_shape w
    (@Raise R e, write_log (failure_record m e JNull)
                   (record_request request w)).
Proof.
  exists [], [failure_record m e JNull]. cbn. repeat split; eauto.
Qed.

Lemma interrupted_shape {R : Type} (b : PyBaseExc) (request : Request)
      (w : World) :
  api_log_shape w (@RaiseBase R b, record_request request w).
Proof.
  exists [], []. cbn. rewrite app_nil_r. repeat split; auto.
Qed.

Lemma not_found_shape {R : Type} (response : Response) (request : Request)
      (w : World) :
  api_log_shape w
    (@Return (option R) None, after_response response request w).
Proof.
  destruct (after_response_exact response request w) as [Hl [Hc Ht]].
  destruct (hook_records_shape (clock w) response) as [Hp Hn].
  exists (hook_records (clock w) response), []. cbn [fst snd].
  rewrite app_nil_r. repeat split; auto.
Qed.

Lemma get_beatmap_shape (beatmap_id : Z) (w : World) :
  api_log_shape w (get_beatmap beatmap_id w).
Proof.
  rewrite get_beatmap_run; cbv zeta.
  destruct (transport w _) as [response | e | b];
    [| apply transport_failure_shape | apply interrupted_shape].
  destruct (status_code response =? 404);
    [apply not_found_shape | apply client_outcome_shape].
Qed.

Lemma get_beatmapset_shape (beatmapset_id : Z) (w : World) :
  api_log_shape w (get_beatmapset beatmapset_id w).
Proof.
  rewrite get_beatmapset_run; cbv zeta.
  destruct (transport w _) as [response | e | b];
    [| apply transport_failure_shape | apply interrupted_shape].
  destruct (status_code response =? 404);
    [apply not_found_shape | apply client_outcome_shape].
Qed.

Lemma search_beatmapsets_shape (query : string)
      (ranked_status : SearchLegacyRankedStatus.t) (mode : GameMode)
      (page page_size : Z) (cursor_string : option string) (w : World) :
  api_log_shape w
    (search_beatmapsets query ranked_status mode page page_size
       cursor_string w).
Proof.
  rewrite search_beatmapsets_run; cbv zeta.
  destruct (transport w _) as [response | e | b];
    [ apply client_outcome_shape
    | apply transport_failure_shape
    | apply interrupted_shape ].
Qed.

(** X1. Each call of the API client only appends to the log, and what it
    appends is: first at most one record, a rate-limit record; then exactly
    one error record, for the exception raised and carrying
    [osu_api_response_data], when the call raises an [Exception], and no
    further record when it returns or is interrupted by a [BaseException]
    that is not an [Exception].  The clock and the upstream are left as
    they were. *)
Theorem api_calls_log_shape (w : World) :
  (forall beatmap_id, api_log_shape w (get_beatmap beatmap_id w))
  /\ (forall beatmapset_id,
         api_log_shape w (get_beatmapset beatmapset_id w))
  /\ (forall query ranked_status mode page page_size cursor_string,
         api_log_shape w
           (search_beatmapsets query ranked_status mode page page_size
              cursor_string w)).
Proof.
  split; [| split].
  - intros; apply get_beatmap_shape.
  - intros; apply get_beatmapset_shape.
  - intros; apply search_beatmapsets_shape.
Qed.

Lemma get_beatmap_sent (beatmap_id : Z) (w : World) :
  sent (snd (get_beatmap beatmap_id w))
  = sent w ++ [build_request osu_api_v2_http_client
                 ("beatmaps/" ++ str_int beatmap_id)%string []].
Proof.
  rewrite get_beatmap_run; cbv zeta.
  destruct (transport w _) as [response | e | b];
    [| reflexivity | reflexivity].
  destruct (status_code response =? 404).
  - apply after_response_sent.
  - rewrite client_outcome_sent. apply after_response_sent.
Qed.

(** X2. A transport failure (timeout, connection error) of [get_beatmap] or
    [get_beatmapset] reaches the caller unchanged; the request was sent once,
    the response hook did not run, and the only record written is the error
    record, with [osu_api_response_data] still [None]. *)
Theorem get_transport_failure (n : Z) (w : World) (e : PyExc) :
  (transport w (build_request osu_api_v2_http_client
                  ("beatmaps/" ++ str_int n)%string []) = Failed e ->
   fst (get_beatmap n w) = Raise e
   /\ log (snd (get_beatmap n w))
      = log w ++ [failure_record "Failed to fetch beatmap from osu! API"
                    e JNull])
  /\ (transport w (build_request osu_api_v2_http_client
                     ("beatmapsets/" ++ str_int n)%string []) = Failed e ->
      fst (get_beatmapset n w) = Raise e
      /\ log (snd (get_beatmapset n w))
         = log w ++ [failure_record
                       "Failed to fetch beatmapset from osu! API" e JNull]).
Proof.
  split; intros Ht.
  - rewrite get_beatmap_run; cbv zeta. rewrite Ht. split; reflexivity.
  - rewrite get_beatmapset_run; cbv zeta. rewrite Ht. split; reflexivity.
Qed.

(** X3. [get_beatmap] returns a beatmap exactly when the upstream answers
    2xx with a body that decodes into it; the only records such a call
    writes are the hook's. *)
Theorem get_beatmap_success (beatmap_id : Z) (w : World)
        (beatmap : BeatmapExtended) :
  let request := build_request osu_api_v2_http_client
                   ("beatmaps/" ++ str_int beatmap_id)%string [] in
  (fst (get_beatmap beatmap_id w) = Return (Some beatmap)
   <-> exists response,
         upstream_answers w request response
         /\ is_success response = true
         /\ decodes_to BeatmapExtended_validate response beatmap)
  /\ (forall response,
         upstream_answers w request response ->
         is_success response = true ->
         decodes_to BeatmapExtended_validate response beatmap ->
         log (snd (get_beatmap beatmap_id w))
         = log w ++ hook_records (clock w) response).
Proof.
  cbv zeta. unfold upstream_answers.
  rewrite get_beatmap_run; cbv zeta. split.
  - split.
    + destruct (transport w _) as [response | e | b];
        [| discriminate | discriminate].
      destruct (status_code response =? 404); [discriminate |].
      intros H. apply client_outcome_return in H as [Hs [_ [v [Hv Hx]]]].
      injection Hx as ->.
      exists response; split; [reflexivity | split; assumption].
    + intros [response [-> [Hs Hv]]].
      rewrite (success_not_404 _ Hs).
      rewrite (client_outcome_success _ _ _ _ _ _ Hs Hv); reflexivity.
  - intros response -> Hs Hv.
    rewrite (success_not_404 _ Hs).
    rewrite (client_outcome_success _ _ _ _ _ _ Hs Hv); cbn [snd].
    apply after_response_exact.
Qed.

(** X4. A 401 answer is never short-circuited: each of the three calls
    raises the status error, and since the hook stays silent on 401 the
    error record is the only record written. *)
Theorem unauthorized_logs_only_the_error (w : World) (response : Response) :
  status_code response = 401 ->
  (forall beatmap_id,
      upstream_answers w
        (build_request osu_api_v2_http_client
           ("beatmaps/" ++ str_int beatmap_id)%string []) response ->
      fst (get_beatmap beatmap_id w) = Raise (HTTPStatusError 401)
      /\ log (snd (get_beatmap beatmap_id w))
         = log w ++ [failure_record "Failed to fetch beatmap from osu! API"
                       (HTTPStatusError 401) JNull])
  /\ (forall beatmapset_id,
         upstream_answers w
           (build_request osu_api_v2_http_client
              ("beatmapsets/" ++ str_int beatmapset_id)%string []) response ->
         fst (get_beatmapset beatmapset_id w) = Raise (HTTPStatusError 401)
         /\ log (snd (get_beatmapset beatmapset_id w))
            = log w ++ [failure_record
                          "Failed to fetch beatmapset from osu! API"
                          (HTTPStatusError 401) JNull])
  /\ (forall query ranked_status mode page page_size cursor_string,
         upstream_answers w
           (search_request query ranked_status mode page page_size
              cursor_string) response ->
         fst (search_beatmapsets query ranked_status mode page page_size
                cursor_string w) = Raise (HTTPStatusError 401)
         /\ log (snd (search_beatmapsets query ranked_status mode page
                        page_size cursor_string w))
            = log w ++ [failure_record
                          "Failed to fetch beatmapsets from osu! API"
                          (HTTPStatusError 401) JNull]).
Proof.
  intros H401. unfold upstream_answers.
  assert (Hs : is_success response = false)
    by (unfold is_success; rewrite H401; reflexivity).
  assert (Hh : forall request,
             log (after_response response request w) = log w).
  { intros request.
    rewrite (proj1 (after_response_exact response request w)).
    unfold hook_records. rewrite H401, orb_true_r. apply app_nil_r. }
  split; [| split].
  - intros beatmap_id Ht. rewrite get_beatmap_run; cbv zeta. rewrite Ht.
    rewrite H401; cbn [Z.eqb Pos.eqb].
    rewrite (client_outcome_status _ _ _ _ _ Hs); cbn [fst snd log write_log].
    rewrite H401, Hh. split; reflexivity.
  - intros beatmapset_id Ht. rewrite get_beatmapset_run; cbv zeta.
    rewrite Ht. rewrite H401; cbn [Z.eqb Pos.eqb].
    rewrite (client_outcome_status _ _ _ _ _ Hs); cbn [fst snd log write_log].
    rewrite H401, Hh. split; reflexivity.
  - intros query ranked_status mode page page_size cursor_string Ht.
    rewrite search_beatmapsets_run; cbv zeta. rewrite Ht.
    rewrite (client_outcome_status _ _ _ _ _ Hs); cbn [fst snd log write_log].
    rewrite H401, Hh. split; reflexivity.
Qed.

(** X5. When an answered call fails on a status other than 401 (and the
    request was not the token exchange), the rate-limit record is written
    first and the error record after it: the log grows by exactly those
    two records, in that order. *)
Theorem ratelimit_record_precedes_error (beatmap_id : Z) (w : World)
        (response : Response) :
  upstream_answers w
    (build_request osu_api_v2_http_client
       ("beatmaps/" ++ str_int beatmap_id)%string []) response ->
  is_success response = false ->
  status_code response <> 404 ->
  status_code response <> 401 ->
  request_url response <> OSU_API_V2_TOKEN_ENDPOINT ->
  log (snd (get_beatmap beatmap_id w))
  = log w ++ [ratelimit_record (clock w) response;
              failure_record "Failed to fetch beatmap from osu! API"
                (HTTPStatusError (status_code response)) JNull].
Proof.
  unfold upstream_answers. intros Ht Hs H404 H401 Hu.
  rewrite get_beatmap_run; cbv zeta. rewrite Ht.
  apply Z.eqb_neq in H404; rewrite H404.
  rewrite (client_outcome_status _ _ _ _ _ Hs); cbn [snd log write_log].
  rewrite (proj1 (after_response_exact response _ w)).
  unfold hook_records.
  apply Z.eqb_neq in H401; apply String.eqb_neq in Hu.
  rewrite H401, Hu; cbn [orb]. rewrite <- app_assoc; reflexivity.
Qed.

Lemma client_outcome_fst_indep {T R : Type} (m : string)
      (validate : list (string * Json) -> T + PyExc) (wrap : T -> R)
      (response : Response) (w1 w2 : World) :
  fst (client_outcome m validate wrap response w1)
  = fst (client_outcome m validate wrap response w2).
Proof.
  unfold client_outcome.
  destruct (is_success response); [| reflexivity].
  destruct (json_loads (content response)) as [v | e]; [| reflexivity].
  destruct v; try reflexivity.
  destruct (validate members); reflexivity.
Qed.

Lemma get_beatmap_outcome_ext (beatmap_id : Z) (w1 w2 : World) :
  transport w1 = transport w2 ->
  fst (get_beatmap beatmap_id w1) = fst (get_beatmap beatmap_id w2).
Proof.
  intros Ht. rewrite !get_beatmap_run; cbv zeta. rewrite Ht.
  destruct (transport w2 _) as [response | e | b];
    [| reflexivity | reflexivity].
  destruct (status_code response =? 404); [reflexivity |].
  apply client_outcome_fst_indep.
Qed.

(** X6. Nothing is cached: a second [get_beatmap] for the same id sends the
    same request again and has the same outcome as the first. *)
Theorem get_beatmap_not_cached (beatmap_id : Z) (w : World) :
  let request := build_request osu_api_v2_http_client
                   ("beatmaps/" ++ str_int beatmap_id)%string [] in
  let first := get_beatmap beatmap_id w in
  let second := get_beatmap beatmap_id (snd first) in
  fst second = fst first
  /\ sent (snd first) = sent w ++ [request]
  /\ sent (snd second) = sent w ++ [request; request]
  /\ method request = "GET"
  /\ url request
     = ("https://osu.ppy.sh/api/v2/beatmaps/" ++ str_int beatmap_id)%string
  /\ params request = [].
Proof.
  cbv zeta.
  destruct (get_beatmap_shape beatmap_id w)
    as [ratelimit [errors [_ [_ [_ [_ [_ Ht]]]]]]].
  split; [| split; [| split; [| repeat split]]].
  - apply get_beatmap_outcome_ext; assumption.
  - apply get_beatmap_sent.
  - rewrite get_beatmap_sent, get_beatmap_sent.
    rewrite <- app_assoc; reflexivity.
Qed.


(** X7. Whatever the cursor, [search_beatmapsets] sends one request whose
    parameters are the six keys [q], [m], [r], [page], [limit] and
    [cursor_string], in that order, each bound to the argument it names; a
    call without a cursor still sends the [cursor_string] key, bound to
    [None]. *)
Theorem search_beatmapsets_request_shape (query : string)
        (ranked_status : SearchLegacyRankedStatus.t) (mode : GameMode)
        (page page_size : Z) (cursor_string : option string) (w : World) :
  exists request,
    sent (snd (search_beatmapsets query ranked_status mode page page_size
                 cursor_string w))
    = sent w ++ [request]
    /\ map fst (params request)
       = ["q"; "m"; "r"; "page"; "limit"; "cursor_string"]
    /\ params_get (params request) "q" = Some (PStr query)
    /\ params_get (params request) "m" = Some (PGameMode mode)
    /\ params_get (params request) "r" = Some (PRankedStatus ranked_status)
    /\ params_get (params request) "page" = Some (PInt page)
    /\ params_get (params request) "limit" = Some (PInt page_size)
    /\ (cursor_string = None ->
        params_get (params request) "cursor_string" = Some PNone)
    /\ (forall c,
          cursor_string = Some c ->
          params_get (params request) "cursor_string" = Some (PStr c)).
Proof.
  exists (search_request query ranked_status mode page page_size
            cursor_string).
  split.
  - rewrite search_beatmapsets_run; cbv zeta.
    destruct (transport w _) as [response | e | b];
    [| reflexivity | reflexivity].
    rewrite client_outcome_sent. apply after_response_sent.
  - repeat split; try reflexivity.
    + intros ->; reflexivity.
    + intros c ->; reflexivity.
Qed.

(** ** Endpoints *)

Lemma str_int_inj (a b : Z) : str_int a = str_int b -> a = b.
Proof.
  unfold str_int. intros H.
  assert (Hn : forall z, Z.to_int z <> Decimal.Pos Decimal.Nil
                         /\ Z.to_int z <> Decimal.Neg Decimal.Nil).
  { intros z; destruct z; cbn; split; try discriminate.
    - intros E; injection E as E.
      exact (DecimalPos.Unsigned.to_uint_nonnil _ E).
    - intros E; injection E as E.
      exact (DecimalPos.Unsigned.to_uint_nonnil _ E). }
  apply DecimalZ.to_int_inj.
  assert (Ha := NilZero.isi (Z.to_int a) (proj1 (Hn a)) (proj2 (Hn a))).
  assert (Hb := NilZero.isi (Z.to_int b) (proj1 (Hn b)) (proj2 (Hn b))).
  rewrite H in Ha. rewrite Ha in Hb. injection Hb as Hb. exact Hb.
Qed.

Lemma append_inj_l (p a b : string) :
  (p ++ a)%string = (p ++ b)%string -> a = b.
Proof.
  induction p as [| c p IH]; cbn; intros H; [exact H |].
  injection H as H. exact (IH H).
Qed.

(** X8. The endpoints never collide: distinct beatmap ids are fetched from
    distinct URLs, likewise distinct beatmapset ids; a beatmap URL is never a
    beatmapset URL nor the search URL; and none of the three is the token
    endpoint the response hook keeps silent on. *)
Theorem api_endpoints_distinct (a b : Z) :
  let beatmap n := url (build_request osu_api_v2_http_client
                          ("beatmaps/" ++ str_int n)%string []) in
  let beatmapset n := url (build_request osu_api_v2_http_client
                             ("beatmapsets/" ++ str_int n)%string []) in
  let search := url (build_request osu_api_v2_http_client
                       "beatmapsets/search" []) in
  (beatmap a = beatmap b -> a = b)
  /\ (beatmapset a = beatmapset b -> a = b)
  /\ beatmap a <> beatmapset b
  /\ beatmap a <> search
  /\ beatmapset a <> search
  /\ beatmap a <> OSU_API_V2_TOKEN_ENDPOINT
  /\ beatmapset a <> OSU_API_V2_TOKEN_ENDPOINT
  /\ search <> OSU_API_V2_TOKEN_ENDPOINT.
Proof.
  cbv zeta.
  change (url (build_request osu_api_v2_http_client
                 ("beatmaps/" ++ str_int a)%string []))
    with ("https://osu.ppy.sh/api/v2/beatmaps/" ++ str_int a)%string.
  change (url (build_request osu_api_v2_http_client
                 ("beatmaps/" ++ str_int b)%string []))
    with ("https://osu.ppy.sh/api/v2/beatmaps/" ++ str_int b)%string.
  change (url (build_request osu_api_v2_http_client
                 ("beatmapsets/" ++ str_int a)%string []))
    with ("https://osu.ppy.sh/api/v2/beatmapsets/" ++ str_int a)%string.
  change (url (build_request osu_api_v2_http_client
                 ("beatmapsets/" ++ str_int b)%string []))
    with ("https://osu.ppy.sh/api/v2/beatmapsets/" ++ str_int b)%string.
  change (url (build_request osu_api_v2_http_client
                 "beatmapsets/search" []))
    with "https://osu.ppy.sh/api/v2/beatmapsets/search".
  split; [| split; [| split; [| split; [| split; [| split; [| split]]]]]].
  - intros H.
    apply (append_inj_l "https://osu.ppy.sh/api/v2/beatmaps/") in H.
    apply str_int_inj; exact H.
  - intros H.
    apply (append_inj_l "https://osu.ppy.sh/api/v2/beatmapsets/") in H.
    apply str_int_inj; exact H.
  - cbn. intros H. discriminate H.
  - cbn. intros H. discriminate H.
  - cbn. intros H.
    apply (append_inj_l "https://osu.ppy.sh/api/v2/beatmapsets/"
             (str_int a) "search") in H.
    unfold str_int in H.
    destruct (Z.to_int a) as [d | d]; cbn in H.
    + destruct d; cbn in H; discriminate H.
    + discriminate H.
  - cbn. intros H. discriminate H.
  - cbn. intros H. discriminate H.
  - intros H. discriminate H.
Qed.

(** ** The mirror backends: failures, warnings, requests *)

(** X9. [RippleMirror.fetch_beatmap_zip_data] returns [None] exactly when
    its client hands back a 404, returns bytes exactly on a 2xx response
    (the body of that response), and for every [Exception] of the client
    and every other status raises [MirrorRequestError] chained to the cause:
    the client's exception, or the status error.  No other [Exception] is
    ever raised.  A [BaseException] that is not an [Exception] is neither
    caught nor wrapped: the call lets it through exactly when the client's
    [get] did, unchanged and without logging a warning. *)
Theorem RippleMirror_contract (self : MirrorSelf) (beatmapset_id : Z)
        (w : World) :
  let result :=
    fst (RippleMirror_fetch_beatmap_zip_data self beatmapset_id w) in
  let got := fst (mirror_response RippleMirror self beatmapset_id w) in
  (result = Return None
   <-> exists response,
         got = Return response /\ status_code response = 404)
  /\ (forall data,
         result = Return (Some data)
         <-> exists response,
               got = Return response
               /\ is_success response = true
               /\ data = content response)
  /\ (forall e, got = Raise e -> result = Raise (MirrorRequestError e))
  /\ (forall response,
         got = Return response ->
         status_code response <> 404 ->
         is_success response = false ->
         result
         = Raise (MirrorRequestError
                    (HTTPStatusError (status_code response))))
  /\ (forall e, result = Raise e -> exists cause, e = MirrorRequestError cause)
  /\ (forall b, result = RaiseBase b <-> got = RaiseBase b)
  /\ (forall b,
         got = RaiseBase b ->
         snd (RippleMirror_fetch_beatmap_zip_data self beatmapset_id w)
         = snd (mirror_response RippleMirror self beatmapset_id w)).
Proof.
  cbv zeta. rewrite RippleMirror_run.
  destruct (mirror_response RippleMirror self beatmapset_id w)
    as [[response | e | b0] w2]; cbn [fst snd].
  - destruct (Z.eqb_spec (status_code response) 404) as [H404 | H404];
      [| destruct (is_success response) eqn:Hs]; cbn [fst snd].
    + split; [| split; [| split; [| split; [| split; [| split]]]]].
      * split; [| reflexivity].
        intros _; exists response; split; [reflexivity | assumption].
      * intros data; split; [discriminate |].
        intros [r [Hr [Hs _]]]; injection Hr as <-.
        rewrite (not_found_not_success _ H404) in Hs; discriminate.
      * discriminate.
      * intros r Hr Hn; injection Hr as <-; contradiction.
      * discriminate.
      * intros b; split; discriminate.
      * discriminate.
    + split; [| split; [| split; [| split; [| split; [| split]]]]].
      * split; [discriminate |].
        intros [r [Hr Hn]]; injection Hr as <-; contradiction.
      * intros data; split.
        -- intros H; injection H as <-.
           exists response; repeat split; assumption.
        -- intros [r [Hr [_ ->]]]; injection Hr as <-; reflexivity.
      * discriminate.
      * intros r Hr _ Hf; injection Hr as <-; congruence.
      * discriminate.
      * intros b; split; discriminate.
      * discriminate.
    + split; [| split; [| split; [| split; [| split; [| split]]]]].
      * split; [discriminate |].
        intros [r [Hr Hn]]; injection Hr as <-; contradiction.
      * intros data; split; [discriminate |].
        intros [r [Hr [Hf _]]]; injection Hr as <-; congruence.
      * discriminate.
      * intros r Hr _ _; injection Hr as <-; reflexivity.
      * intros e H; injection H as <-; eauto.
      * intros b; split; discriminate.
      * discriminate.
  - split; [| split; [| split; [| split; [| split; [| split]]]]].
    + split; [discriminate |]. intros [r [Hr _]]; discriminate.
    + intros data; split; [discriminate |].
      intros [r [Hr _]]; discriminate.
    + intros e' H; injection H as <-; reflexivity.
    + discriminate.
    + intros e' H; injection H as <-; eauto.
    + intros b; split; discriminate.
    + discriminate.
  - split; [| split; [| split; [| split; [| split; [| split]]]]].
    + split; [discriminate |]. intros [r [Hr _]]; discriminate.
    + intros data; split; [discriminate |].
      intros [r [Hr _]]; discriminate.
    + discriminate.
    + discriminate.
    + discriminate.
    + intros b; split; intros H; injection H as <-; reflexivity.
    + reflexivity.
Qed.

(** X10. The two backends differ on what they log.  Ripple writes its
    warning exactly when it raises, and the warning carries the cause; a 404
    leaves no warning.  Mino writes its warning exactly when it returns
    [None], a 404 included, carrying the status error. *)
Theorem mirror_warnings (self : MirrorSelf) (beatmapset_id : Z) (w : World) :
  let ripple := RippleMirror_fetch_beatmap_zip_data self beatmapset_id w in
  let mino := MinoMirror_fetch_beatmap_zip_data self beatmapset_id w in
  let after backend := snd (mirror_response backend self beatmapset_id w) in
  (forall cause,
      fst ripple = Raise (MirrorRequestError cause) ->
      log (snd ripple)
      = log (after RippleMirror) ++ [mirror_warning RippleMirror cause])
  /\ (forall v, fst ripple = Return v -> snd ripple = after RippleMirror)
  /\ (fst mino = Return None ->
      exists cause,
        log (snd mino)
        = log (after MinoMirror) ++ [mirror_warning MinoMirror cause])
  /\ (forall data,
         fst mino = Return (Some data) -> snd mino = after MinoMirror)
  /\ (forall response,
         fst (mirror_response MinoMirror self beatmapset_id w)
         = Return response ->
         status_code response = 404 ->
         log (snd mino)
         = log (after MinoMirror)
             ++ [mirror_warning MinoMirror (HTTPStatusError 404)]).
Proof.
  cbv zeta. rewrite RippleMirror_run, MinoMirror_run.
  split; [| split; [| split; [| split]]].
  - destruct (mirror_response RippleMirror self beatmapset_id w)
      as [[response | e | b] w2]; cbn [fst snd].
    + destruct (status_code response =? 404); [discriminate |].
      destruct (is_success response); [discriminate |].
      cbn [fst snd]. intros cause H; injection H as <-; reflexivity.
    + intros cause H; injection H as <-; reflexivity.
    + discriminate.
  - destruct (mirror_response RippleMirror self beatmapset_id w)
      as [[response | e | b] w2]; cbn [fst snd];
      [| discriminate | discriminate].
    destruct (status_code response =? 404); [reflexivity |].
    destruct (is_success response); [reflexivity | discriminate].
  - destruct (mirror_response MinoMirror self beatmapset_id w)
      as [[response | e | b] w2]; cbn [fst snd].
    + destruct (is_success response); [discriminate |].
      cbn [fst snd]. intros _; eexists; reflexivity.
    + intros _; eexists; reflexivity.
    + discriminate.
  - destruct (mirror_response MinoMirror self beatmapset_id w)
      as [[response | e | b] w2]; cbn [fst snd];
      [| discriminate | discriminate].
    destruct (is_success response); [reflexivity | discriminate].
  - destruct (mirror_response MinoMirror self beatmapset_id w)
      as [[response | e | b] w2]; cbn [fst snd];
      [| discriminate | discriminate].
    intros r Hr H404; injection Hr as <-.
    rewrite (not_found_not_success _ H404), H404; reflexivity.
Qed.

Lemma hookless_get_sent (client : AsyncClient) (u : string)
      (p : list (string * ParamValue)) (w : World) :
  event_hooks client = [] ->
  sent (snd (AsyncClient_get client u p w))
  = sent w ++ [build_request client u p].
Proof.
  intros Hh. unfold AsyncClient_get, def_, bind, send.
  rewrite Hh. destruct (transport w _); reflexivity.
Qed.

(** X11. A backend asks its mirror at the fixed address
    [{base_url}/d/{beatmapset_id}], whatever base URL its client was built
    with; with a client that has no hooks, one call sends exactly one such
    GET, also when the attempt fails: there is no retry. *)
Theorem mirror_single_request (backend : MirrorBackend) (self : MirrorSelf)
        (beatmapset_id : Z) (w : World) :
  let request :=
    build_request (http_client self)
      (mirror_base_url backend ++ "/d/" ++ str_int beatmapset_id)%string
      [] in
  method request = "GET"
  /\ url request
     = (mirror_base_url backend ++ "/d/" ++ str_int beatmapset_id)%string
  /\ params request = []
  /\ (event_hooks (http_client self) = [] ->
      sent (snd (fetch_beatmap_zip_data backend self beatmapset_id w))
      = sent w ++ [request]).
Proof.
  cbv zeta. split; [reflexivity | split; [| split; [reflexivity |]]].
  - destruct backend; reflexivity.
  - intros Hh.
    assert (Hs : sent (snd (mirror_response backend self beatmapset_id w))
                 = sent w
                     ++ [build_request (http_client self)
                           (mirror_base_url backend ++ "/d/"
                              ++ str_int beatmapset_id)%string []]).
    { unfold mirror_response. rewrite (hookless_get_sent _ _ _ _ Hh).
      reflexivity. }
    destruct backend; cbn [fetch_beatmap_zip_data].
    + rewrite MinoMirror_run.
      destruct (mirror_response MinoMirror self beatmapset_id w)
        as [[response | e | b] w2]; cbn [snd] in Hs |- *.
      * destruct (is_success response); exact Hs.
      * exact Hs.
      * exact Hs.
    + rewrite RippleMirror_run.
      destruct (mirror_response RippleMirror self beatmapset_id w)
        as [[response | e | b] w2]; cbn [snd] in Hs |- *.
      * destruct (status_code response =? 404); [exact Hs |].
        destruct (is_success response); exact Hs.
      * exact Hs.
      * exact Hs.
Qed.

(** ** Enumerations *)


(** X13. Looking a ruleset up by its string value and taking the value of a
    member are inverse to each other; the lookup succeeds on exactly the four
    strings osu, taiko, fruits and mania, and is case sensitive. *)
Theorem Ruleset_roundtrip :
  (forall r : Ruleset.t, Ruleset.of_value (Ruleset.value r) = Some r)
  /\ (forall (s : string) (r : Ruleset.t),
         Ruleset.of_value s = Some r -> Ruleset.value r = s)
  /\ (forall s : string,
         Ruleset.of_value s = None
         <-> ~ In s ["osu"; "taiko"; "fruits"; "mania"]%string)
  /\ Ruleset.of_value "OSU" = None.
Proof.
  assert (Hfind : forall (s : string) (r : Ruleset.t),
             Ruleset.of_value s = Some r -> Ruleset.value r = s).
  { intros s r H. unfold Ruleset.of_value in H.
    apply find_some in H as [_ H]. apply String.eqb_eq in H; exact H. }
  split; [| split; [exact Hfind | split; [| reflexivity]]].
  - intros r; destruct r; reflexivity.
  - intros s; split.
    + intros Hn Hin. cbn in Hin.
      destruct Hin as [<- | [<- | [<- | [<- | []]]]]; discriminate Hn.
    + intros Hn. destruct (Ruleset.of_value s) as [r |] eqn:E;
        [| reflexivity].
      exfalso; apply Hn. apply Hfind in E. subst s.
      destruct r; cbn; tauto.
Qed.

(** ** The reset timestamp *)

(** X14. The rate-limit record depends on the clock only through the
    minute: for the same response, two calls of the hook whose clocks agree
    on year, month, day, hour and minute write the same record, whatever the
    seconds and microseconds. *)
Theorem ratelimit_record_same_within_minute
        (response : Response) (w1 w2 : World) (r1 r2 : LogRecord) :
  year (clock w1) = year (clock w2) ->
  month (clock w1) = month (clock w2) ->
  day (clock w1) = day (clock w2) ->
  hour (clock w1) = hour (clock w2) ->
  minute (clock w1) = minute (clock w2) ->
  log (snd (log_osu_api_response response w1)) = log w1 ++ [r1] ->
  log (snd (log_osu_api_response response w2)) = log w2 ++ [r2] ->
  r1 = r2.
Proof.
  intros Hy Hm Hd Hh Hmin.
  rewrite !log_osu_api_response_run; cbn [snd].
  destruct (String.eqb (request_url response) OSU_API_V2_TOKEN_ENDPOINT
            || (status_code response =? 401)).
  - intros H; symmetry in H; exfalso; exact (app_one_neq _ _ H).
  - cbn [log write_log]. intros H1 H2.
    apply app_inj_tail in H1 as [_ <-]. apply app_inj_tail in H2 as [_ <-].
    unfold ratelimit_record, replace. rewrite Hy, Hm, Hd, Hh, Hmin.
    reflexivity.
Qed.

Lemma has_length_spec (k : nat) (s : string) :
  has_length k s = true -> String.length s = k.
Proof.
  revert s; induction k as [| k IH]; intros s; destruct s; cbn;
    try discriminate; [reflexivity |].
  intros H; f_equal; apply IH; exact H.
Qed.

Lemma string_length_append (a b : string) :
  String.length (a ++ b)%string = (String.length a + String.length b)%nat.
Proof.
  induction a as [| c a IH]; cbn; [reflexivity | rewrite IH; reflexivity].
Qed.

Lemma zfill2_length (n : nat) :
  (n < 100)%nat -> String.length (zfill 2 n) = 2%nat.
Proof.
  intros Hn. apply has_length_spec.
  assert (Hall : forallb (fun k => has_length 2 (zfill 2 k)) (seq 0 100)
                 = true) by (vm_compute; reflexivity).
  rewrite forallb_forall in Hall. apply Hall. apply in_seq; lia.
Qed.

Lemma zfill4_length (n : nat) :
  (n < Z.to_nat 10000)%nat -> String.length (zfill 4 n) = 4%nat.
Proof.
  intros Hn. apply has_length_spec.
  assert (Hall : forallb (fun k => has_length 4 (zfill 4 k))
                   (seq 0 (Z.to_nat 10000))
                 = true) by (vm_compute; reflexivity).
  rewrite forallb_forall in Hall. apply Hall. apply in_seq; lia.
Qed.

(** X15. For every clock reading within the ranges of [datetime], the reset
    timestamp has the fixed width of 25 characters
    (YYYY-MM-DDTHH:MM:00+00:00): the fields are zero-padded and no
    fractional part is printed. *)
Theorem reset_utc_fixed_width (response : Response) (w : World) :
  valid_datetime (clock w) ->
  String.length (isoformat (replace (clock w) 0 0)) = 25%nat
  /\ forall r,
      log (snd (log_osu_api_response response w)) = log w ++ [r] ->
      exists u rl,
        extra r = RequestExtra u rl /\ String.length (reset_utc rl) = 25%nat.
Proof.
  intros [Hy [Hm [Hd [Hh [Hmin _]]]]].
  assert (Hlen : String.length (isoformat (replace (clock w) 0 0)) = 25%nat).
  { unfold isoformat, isodate, replace;
      cbn [year month day hour minute second microsecond Nat.eqb].
    rewrite !string_length_append.
    rewrite zfill4_length by lia.
    rewrite !zfill2_length by lia.
    reflexivity. }
  split; [exact Hlen |].
  intros r. rewrite log_osu_api_response_run; cbn [snd].
  destruct (String.eqb (request_url response) OSU_API_V2_TOKEN_ENDPOINT
            || (status_code response =? 401)).
  - intros H; symmetry in H; exfalso; exact (app_one_neq _ _ H).
  - cbn [log write_log]. intros H. apply app_inj_tail in H as [_ <-].
    eexists; eexists; split; [reflexivity | exact Hlen].
Qed.

End Adapters.

Arguments Return {A} v.
Arguments Raise {A} e.
Arguments RaiseBase {A} b.

(** * The scenarios, run through the theorems *)

Lemma from_osu_api_status_total_witness :
  (SearchLegacyRankedStatus.from_osu_api_status RankedStatus.LOVED = None
   \/ exists l,
       SearchLegacyRankedStatus.from_osu_api_status RankedStatus.LOVED
       = Some l
       /\ In (SearchLegacyRankedStatus.value l) [0; 2; 3; 4; 5; 6; 7; 8])
  /\ SearchLegacyRankedStatus.from_osu_api_status RankedStatus.APPROVED
     = SearchLegacyRankedStatus.from_osu_api_status RankedStatus.APPROVED.
Proof.
  split.
  - exact (proj1 from_osu_api_status_total RankedStatus.LOVED).
  - exact (proj1 (proj2 from_osu_api_status_total)
             RankedStatus.APPROVED RankedStatus.APPROVED eq_refl).
Defined.

Lemma from_osu_api_status_range_witness :
  SearchLegacyRankedStatus.from_osu_api_status RankedStatus.PENDING
  <> Some SearchLegacyRankedStatus.GRAVEYARD.
Proof.
  apply (proj2 (proj2 (proj2 (proj2 (proj2 from_osu_api_status_range))))).
  simpl; tauto.
Defined.

Lemma log_osu_api_response_emits_iff_witness :
  log nat
    (snd (log_osu_api_response nat
            (scenario_response OSU_API_V2_TOKEN_ENDPOINT 200 "{}")
            (scenario_world nat)))
  = log nat (scenario_world nat)
  /\ log nat
       (snd (log_osu_api_response nat
               (scenario_response "https://osu.ppy.sh/api/v2/beatmaps/42"
                  401 "")
               (scenario_world nat)))
     = log nat (scenario_world nat)
  /\ exists r,
      log nat
        (snd (log_osu_api_response nat
                (scenario_response "https://osu.ppy.sh/api/v2/beatmaps/42"
                   500 "")
                (scenario_world nat)))
      = log nat (scenario_world nat) ++ [r]
      /\ is_ratelimit_log r = true.
Proof.
  split; [| split].
  - apply (proj2 (proj2 (log_osu_api_response_emits_iff nat _ _))).
    left; reflexivity.
  - apply (proj2 (proj2 (log_osu_api_response_emits_iff nat _ _))).
    right; reflexivity.
  - apply (proj1 (proj2 (log_osu_api_response_emits_iff nat _ _))).
    split; simpl; discriminate.
Defined.

Lemma reset_utc_is_start_of_minute_witness :
  exists (u : string) (rl : Ratelimit),
    extra
      (ratelimit_record scenario_clock
         (scenario_response "https://osu.ppy.sh/api/v2/beatmaps/42" 500 ""))
    = RequestExtra u rl
    /\ reset_utc rl
       = isoformat {| year := 2024; month := 6; day := 20; hour := 12;
                      minute := 34; second := 0; microsecond := 0 |}
    /\ reset_utc rl = "2024-06-20T12:34:00+00:00".
Proof.
  apply (reset_utc_is_start_of_minute nat
           (scenario_response "https://osu.ppy.sh/api/v2/beatmaps/42" 500 "")
           (scenario_world nat)).
  reflexivity.
Defined.

Lemma get_beatmap_contract_witness :
  fst (get_beatmap nat scenario_json_loads unit scenario_validate 999999
         (scenario_world nat)) = Return None
  /\ fst (get_beatmap nat scenario_json_loads unit scenario_validate 42
            (scenario_world nat)) = Raise (HTTPStatusError 500)
  /\ fst (get_beatmap nat scenario_json_loads unit scenario_validate 7
            (scenario_world nat)) = Raise JSONDecodeError.
Proof.
  split; [| split].
  - apply (proj1 (get_beatmap_contract nat scenario_json_loads unit
                    scenario_validate 999999 (scenario_world nat))).
    exists (scenario_response "https://osu.ppy.sh/api/v2/beatmaps/999999"
              404 "").
    split; reflexivity.
  - apply (proj1 (proj2 (proj2 (get_beatmap_contract nat scenario_json_loads
                                  unit scenario_validate 42
                                  (scenario_world nat))))
             (scenario_response "https://osu.ppy.sh/api/v2/beatmaps/42"
                500 "")).
    + reflexivity.
    + simpl; discriminate.
    + reflexivity.
  - apply (proj2 (proj2 (proj2 (get_beatmap_contract nat scenario_json_loads
                                  unit scenario_validate 7
                                  (scenario_world nat))))
             (scenario_response "https://osu.ppy.sh/api/v2/beatmaps/7"
                200 "<html>") JSONDecodeError JNull).
    + reflexivity.
    + reflexivity.
    + apply body_not_json; reflexivity.
Defined.

Lemma get_beatmapset_contract_witness :
  fst (get_beatmapset nat scenario_json_loads unit scenario_validate 999999
         (scenario_world nat)) = Return None
  /\ fst (get_beatmapset nat scenario_json_loads unit scenario_validate 42
            (scenario_world nat)) = Raise (HTTPStatusError 500).
Proof.
  split.
  - apply (proj1 (proj2 (get_beatmapset_contract nat scenario_json_loads unit
                           scenario_validate 999999 (scenario_world nat)))).
    exists (scenario_response "https://osu.ppy.sh/api/v2/beatmapsets/999999"
              404 "").
    split; reflexivity.
  - apply (proj1 (proj2 (proj2 (get_beatmapset_contract nat
                                  scenario_json_loads unit scenario_validate
                                  42 (scenario_world nat))))
             (scenario_response "https://osu.ppy.sh/api/v2/beatmapsets/42"
                500 "")).
    + reflexivity.
    + simpl; discriminate.
    + reflexivity.
Defined.

Lemma search_beatmapsets_contract_witness :
  fst (search_beatmapsets nat scenario_json_loads unit scenario_validate
         "camellia" SearchLegacyRankedStatus.RANKED 0%nat 1 50 None
         (scenario_world nat))
  = Raise (HTTPStatusError 404).
Proof.
  apply (proj1 (proj2 (proj2 (search_beatmapsets_contract nat
                                scenario_json_loads unit scenario_validate
                                "camellia" SearchLegacyRankedStatus.RANKED
                                0%nat 1 50 None (scenario_world nat))))
           (scenario_response "https://osu.ppy.sh/api/v2/beatmapsets/search"
              404 "")).
  - reflexivity.
  - reflexivity.
Defined.

Lemma fetch_beatmap_zip_data_404_witness :
  fst (fetch_beatmap_zip_data nat RippleMirror (scenario_mirror nat)
         123 (scenario_world nat)) = Return None
  /\ fst (fetch_beatmap_zip_data nat MinoMirror (scenario_mirror nat)
            999999 (scenario_world nat)) = Return None.
Proof.
  split.
  - apply (fetch_beatmap_zip_data_404 nat RippleMirror
             (scenario_mirror nat) 123 (scenario_world nat)
             (scenario_response "https://storage.ripple.moe/d/123" 404 ""));
      reflexivity.
  - apply (fetch_beatmap_zip_data_404 nat MinoMirror
             (scenario_mirror nat) 999999 (scenario_world nat)
             (scenario_response "https://catboy.best/d/999999" 404 ""));
      reflexivity.
Defined.

Lemma MinoMirror_catches_every_Exception_witness :
  fst (MinoMirror_fetch_beatmap_zip_data nat (scenario_mirror nat) 123
         (scenario_world nat))
  = Return (Some (list_byte_of_string "OSZ2DATA"))
  /\ fst (MinoMirror_fetch_beatmap_zip_data nat (scenario_mirror nat) 5
            (scenario_world nat))
     = Return None
  /\ fst (MinoMirror_fetch_beatmap_zip_data nat (scenario_mirror nat) 123
            (scenario_world_cancelled nat))
     = RaiseBase CancelledError.
Proof.
  split; [| split].
  - apply (proj1 (proj2 (MinoMirror_catches_every_Exception nat
                           (scenario_mirror nat) 123 (scenario_world nat)))).
    exists (scenario_response "https://catboy.best/d/123" 200 "OSZ2DATA").
    repeat split; reflexivity.
  - apply (proj1 (proj2 (proj2 (MinoMirror_catches_every_Exception nat
                                  (scenario_mirror nat) 5
                                  (scenario_world nat))))).
    left; exists (TransportError "ConnectTimeout"); reflexivity.
  - apply (proj1 (proj2 (proj2 (proj2 (proj2
             (MinoMirror_catches_every_Exception nat (scenario_mirror nat)
                123 (scenario_world_cancelled nat))))))).
    reflexivity.
Defined.

(** C9, as stated, fails: when the [await] of the client's [get] is
    cancelled, the call does not return; the cancellation reaches the
    caller, and nothing but the announcement has been logged. *)
Lemma MinoMirror_cancellation_propagates :
  fst (MinoMirror_fetch_beatmap_zip_data nat (scenario_mirror nat) 123
         (scenario_world_cancelled nat))
  = RaiseBase CancelledError
  /\ ~ (exists v,
          fst (MinoMirror_fetch_beatmap_zip_data nat (scenario_mirror nat)
                 123 (scenario_world_cancelled nat))
          = Return v)
  /\ log nat
       (snd (MinoMirror_fetch_beatmap_zip_data nat (scenario_mirror nat) 123
               (scenario_world_cancelled nat)))
     = [mirror_announcement MinoMirror 123].
Proof.
  split; [reflexivity | split; [| reflexivity]].
  intros [v Hv]. vm_compute in Hv. discriminate Hv.
Qed.

(** * The embedding, executed *)

Example isoformat_keeps_microseconds :
  isoformat scenario_clock = "2024-06-20T12:34:56.000789+00:00".
Proof. reflexivity. Qed.

Example isoformat_start_of_minute :
  isoformat (replace scenario_clock 0 0) = "2024-06-20T12:34:00+00:00".
Proof. reflexivity. Qed.

Example str_int_examples :
  str_int 999999 = "999999" /\ str_int 0 = "0" /\ str_int (-12) = "-12".
Proof. repeat split; reflexivity. Qed.

Example get_beatmap_not_found_log :
  let result :=
    get_beatmap nat scenario_json_loads unit scenario_validate 999999
      (scenario_world nat) in
  fst result = Return None
  /\ map levelname (log nat (snd result)) = [INFO]
  /\ map is_payload_log (log nat (snd result)) = [false]
  /\ map (url nat) (sent nat (snd result))
     = ["https://osu.ppy.sh/api/v2/beatmaps/999999"].
Proof. vm_compute. repeat split; reflexivity. Qed.

Example get_beatmap_server_error_log :
  let result :=
    get_beatmap nat scenario_json_loads unit scenario_validate 42
      (scenario_world nat) in
  fst result = Raise (HTTPStatusError 500)
  /\ map levelname (log nat (snd result)) = [INFO; ERROR]
  /\ map extra (skipn 1 (log nat (snd result))) = [ResponseDataExtra JNull].
Proof. vm_compute. repeat split; reflexivity. Qed.

Example ripple_transport_failure :
  let result :=
    RippleMirror_fetch_beatmap_zip_data nat (scenario_mirror nat) 5
      (scenario_world nat) in
  fst result = Raise (MirrorRequestError (TransportError "ConnectTimeout"))
  /\ map levelname (log nat (snd result)) = [INFO; WARNING].
Proof. vm_compute. repeat split; reflexivity. Qed.

Example mino_transport_failure :
  let result :=
    MinoMirror_fetch_beatmap_zip_data nat (scenario_mirror nat) 5
      (scenario_world nat) in
  fst result = Return None
  /\ map levelname (log nat (snd result)) = [INFO; WARNING].
Proof. vm_compute. repeat split; reflexivity. Qed.

(** * More scenarios, run through the further properties *)

Lemma get_transport_failure_witness :
  fst (get_beatmap nat scenario_json_loads unit scenario_validate 8
         (scenario_world nat))
  = Raise (TransportError "ConnectTimeout")
  /\ fst (get_beatmapset nat scenario_json_loads unit scenario_validate 8
            (scenario_world nat))
     = Raise (TransportError "ConnectTimeout").
Proof.
  split.
  - apply (proj1 (get_transport_failure nat scenario_json_loads unit unit
                    scenario_validate scenario_validate 8
                    (scenario_world nat) (TransportError "ConnectTimeout"))).
    reflexivity.
  - apply (proj2 (get_transport_failure nat scenario_json_loads unit unit
                    scenario_validate scenario_validate 8
                    (scenario_world nat) (TransportError "ConnectTimeout"))).
    reflexivity.
Defined.

Lemma get_beatmap_success_witness :
  fst (get_beatmap nat scenario_json_loads unit scenario_accept 1
         (scenario_world_ok nat))
  = Return (Some tt).
Proof.
  apply (proj1 (get_beatmap_success nat scenario_json_loads unit
                  scenario_accept 1 (scenario_world_ok nat) tt)).
  exists (scenario_response "https://osu.ppy.sh/api/v2/beatmaps/1" 200 "{}").
  split; [reflexivity | split; [reflexivity |]].
  exists []; split; reflexivity.
Defined.

Lemma unauthorized_logs_only_the_error_witness :
  fst (get_beatmap nat scenario_json_loads unit scenario_validate 1
         (scenario_world_unauthorized nat))
  = Raise (HTTPStatusError 401)
  /\ log nat
       (snd (get_beatmap nat scenario_json_loads unit scenario_validate 1
               (scenario_world_unauthorized nat)))
     = log nat (scenario_world_unauthorized nat)
         ++ [failure_record "Failed to fetch beatmap from osu! API"
               (HTTPStatusError 401) JNull].
Proof.
  apply (proj1 (unauthorized_logs_only_the_error nat scenario_json_loads
                  unit unit unit scenario_validate scenario_validate
                  scenario_validate (scenario_world_unauthorized nat)
                  (scenario_response "https://osu.ppy.sh/api/v2/beatmaps/1"
                     401 "")
                  eq_refl) 1).
  reflexivity.
Defined.

Lemma ratelimit_record_precedes_error_witness :
  log nat
    (snd (get_beatmap nat scenario_json_loads unit scenario_validate 42
            (scenario_world nat)))
  = log nat (scenario_world nat)
      ++ [ratelimit_record scenario_clock
            (scenario_response "https://osu.ppy.sh/api/v2/beatmaps/42" 500 "");
          failure_record "Failed to fetch beatmap from osu! API"
            (HTTPStatusError 500) JNull].
Proof.
  apply (ratelimit_record_precedes_error nat scenario_json_loads unit
           scenario_validate 42 (scenario_world nat)
           (scenario_response "https://osu.ppy.sh/api/v2/beatmaps/42" 500 "")).
  - reflexivity.
  - reflexivity.
  - simpl; discriminate.
  - simpl; discriminate.
  - simpl; discriminate.
Defined.

Lemma search_beatmapsets_request_shape_witness :
  exists request,
    sent nat
      (snd (search_beatmapsets nat scenario_json_loads unit scenario_validate
              "camellia" SearchLegacyRankedStatus.RANKED 0%nat 1 50 None
              (scenario_world nat)))
    = sent nat (scenario_world nat) ++ [request]
    /\ params_get nat (params nat request) "cursor_string"
       = Some (PNone nat).
Proof.
  destruct (search_beatmapsets_request_shape nat scenario_json_loads unit
              scenario_validate "camellia" SearchLegacyRankedStatus.RANKED
              0%nat 1 50 None (scenario_world nat))
    as [request [Hs [_ [_ [_ [_ [_ [_ [Hn _]]]]]]]]].
  exists request; split; [exact Hs | exact (Hn eq_refl)].
Defined.

Lemma api_endpoints_distinct_witness :
  (3 = 3)
  /\ url nat (build_request nat (osu_api_v2_http_client nat)
                ("beatmaps/" ++ str_int 3)%string [])
     <> url nat (build_request nat (osu_api_v2_http_client nat)
                   ("beatmapsets/" ++ str_int 3)%string []).
Proof.
  split.
  - apply (proj1 (api_endpoints_distinct nat 3 3)). reflexivity.
  - exact (proj1 (proj2 (proj2 (api_endpoints_distinct nat 3 3)))).
Defined.

Lemma RippleMirror_contract_witness :
  fst (RippleMirror_fetch_beatmap_zip_data nat (scenario_mirror nat) 5
         (scenario_world nat))
  = Raise (MirrorRequestError (TransportError "ConnectTimeout"))
  /\ fst (RippleMirror_fetch_beatmap_zip_data nat (scenario_mirror nat) 123
            (scenario_world nat))
     = Return None.
Proof.
  split.
  - apply (proj1 (proj2 (proj2 (RippleMirror_contract nat
                                  (scenario_mirror nat) 5
                                  (scenario_world nat))))).
    reflexivity.
  - apply (proj1 (RippleMirror_contract nat (scenario_mirror nat) 123
                    (scenario_world nat))).
    exists (scenario_response "https://storage.ripple.moe/d/123" 404 "").
    split; reflexivity.
Defined.

Lemma mirror_warnings_witness :
  log nat
    (snd (MinoMirror_fetch_beatmap_zip_data nat (scenario_mirror nat) 999999
            (scenario_world nat)))
  = log nat
      (snd (mirror_response nat MinoMirror (scenario_mirror nat) 999999
              (scenario_world nat)))
      ++ [mirror_warning MinoMirror (HTTPStatusError 404)]
  /\ snd (RippleMirror_fetch_beatmap_zip_data nat (scenario_mirror nat) 123
            (scenario_world nat))
     = snd (mirror_response nat RippleMirror (scenario_mirror nat) 123
              (scenario_world nat)).
Proof.
  split.
  - apply (proj2 (proj2 (proj2 (proj2 (mirror_warnings nat
                                         (scenario_mirror nat) 999999
                                         (scenario_world nat)))))
             (scenario_response "https://catboy.best/d/999999" 404 ""));
      reflexivity.
  - apply (proj1 (proj2 (mirror_warnings nat (scenario_mirror nat) 123
                           (scenario_world nat))) None).
    reflexivity.
Defined.

Lemma mirror_single_request_witness :
  sent nat
    (snd (fetch_beatmap_zip_data nat RippleMirror (scenario_mirror nat) 5
            (scenario_world nat)))
  = sent nat (scenario_world nat)
      ++ [build_request nat (http_client nat (scenario_mirror nat))
            "https://storage.ripple.moe/d/5" []].
Proof.
  apply (proj2 (proj2 (proj2 (mirror_single_request nat RippleMirror
                                (scenario_mirror nat) 5
                                (scenario_world nat))))).
  reflexivity.
Defined.


Lemma Ruleset_roundtrip_witness :
  Ruleset.value Ruleset.TAIKO = "taiko".
Proof.
  apply (proj1 (proj2 Ruleset_roundtrip) "taiko" Ruleset.TAIKO).
  reflexivity.
Defined.

Lemma ratelimit_record_same_within_minute_witness :
  ratelimit_record scenario_clock
    (scenario_response "https://osu.ppy.sh/api/v2/beatmaps/42" 500 "")
  = ratelimit_record (replace scenario_clock 1 2)
      (scenario_response "https://osu.ppy.sh/api/v2/beatmaps/42" 500 "").
Proof.
  apply (ratelimit_record_same_within_minute nat
           (scenario_response "https://osu.ppy.sh/api/v2/beatmaps/42" 500 "")
           (scenario_world nat)
           (Build_World nat (replace scenario_clock 1 2)
              (scenario_transport nat) [] []));
    reflexivity.
Defined.

Lemma reset_utc_fixed_width_witness :
  String.length (isoformat (replace scenario_clock 0 0)) = 25%nat.
Proof.
  apply (proj1 (reset_utc_fixed_width nat
                  (scenario_response "https://osu.ppy.sh/api/v2/beatmaps/42"
                     500 "")
                  (scenario_world nat)
                  ltac:(unfold valid_datetime; vm_compute;
                        repeat split; discriminate))).
Defined.

Example get_beatmap_cancelled :
  let result :=
    get_beatmap nat scenario_json_loads unit scenario_validate 42
      (scenario_world_cancelled nat) in
  fst result = RaiseBase CancelledError
  /\ log nat (snd result) = [].
Proof. vm_compute. split; reflexivity. Qed.

Example ripple_cancelled :
  let result :=
    RippleMirror_fetch_beatmap_zip_data nat (scenario_mirror nat) 123
      (scenario_world_cancelled nat) in
  fst result = RaiseBase CancelledError
  /\ map levelname (log nat (snd result)) = [INFO].
Proof. vm_compute. split; reflexivity. Qed.
